(** * Antü Küyen AI: the provider adapter (services/geminiService.ts)

    A shallow embedding of the two workflows of the service module,
    [askCatalogAssistant] and [generateVideo], together with the part of
    [types.ts] they use.  JavaScript objects whose fields are assigned
    conditionally are records with optional fields: a field that was never
    assigned is [None].  Calls that leave the program (the chat call, the
    video submission, the operation re-query, the asset fetch, the timer)
    are threaded through an explicit state that also logs them. *)

From Stdlib Require Import String Ascii List NArith Arith Bool Lia DecimalString.
Import ListNotations.
Local Open Scope string_scope.
Local Open Scope list_scope.
Local Open Scope nat_scope.

Set Implicit Arguments.

(** ** types.ts *)

Inductive VeoModel := VEO_FAST | VEO.

Definition VeoModel_value (m : VeoModel) : string :=
  match m with
  | VEO_FAST => "veo-3.1-fast-generate-preview"
  | VEO => "veo-3.1-generate-preview"
  end.

Inductive AspectRatio := LANDSCAPE | PORTRAIT.

Definition AspectRatio_value (a : AspectRatio) : string :=
  match a with
  | LANDSCAPE => "16:9"
  | PORTRAIT => "9:16"
  end.

Inductive Resolution := P720 | P1080.

Definition Resolution_value (r : Resolution) : string :=
  match r with
  | P720 => "720p"
  | P1080 => "1080p"
  end.

Inductive GenerationMode :=
| TEXT_TO_VIDEO
| FRAMES_TO_VIDEO
| REFERENCES_TO_VIDEO
| EXTEND_VIDEO.

Definition GenerationMode_value (m : GenerationMode) : string :=
  match m with
  | TEXT_TO_VIDEO => "Text to Video"
  | FRAMES_TO_VIDEO => "Frames to Video"
  | REFERENCES_TO_VIDEO => "References to Video"
  | EXTEND_VIDEO => "Extend Video"
  end.

(** [mode === m'] on enum members. *)
Definition GenerationMode_eqb (a b : GenerationMode) : bool :=
  match a, b with
  | TEXT_TO_VIDEO, TEXT_TO_VIDEO
  | FRAMES_TO_VIDEO, FRAMES_TO_VIDEO
  | REFERENCES_TO_VIDEO, REFERENCES_TO_VIDEO
  | EXTEND_VIDEO, EXTEND_VIDEO => true
  | _, _ => false
  end.

(** The browser's [File]: only [type] is read by the service. *)
Module File.
Record t := mk { name : string; type : string }.
End File.

Module ImageFile.
Record t := mk { file : File.t; base64 : string }.
End ImageFile.

Module VideoFile.
Record t := mk { file : File.t; base64 : string }.
End VideoFile.

(** The SDK's [Video]: every field is optional there. *)
Module Video.
Record t := mk
  { uri : option string;
    videoBytes : option string;
    mimeType : option string }.
End Video.

Module GenerateVideoParams.
Record t := mk
  { prompt : string;
    model : VeoModel;
    aspectRatio : AspectRatio;
    resolution : Resolution;
    mode : GenerationMode;
    startFrame : option ImageFile.t;
    endFrame : option ImageFile.t;
    referenceImages : option (list ImageFile.t);
    logoImage : option ImageFile.t;
    styleImage : option ImageFile.t;
    inputVideo : option VideoFile.t;
    inputVideoObject : option Video.t;
    isLooping : option bool }.

(** The bundle with one field replaced, for statements that vary a field. *)
Definition with_startFrame (v : option ImageFile.t) (p : t) : t :=
  mk (prompt p) (model p) (aspectRatio p) (resolution p) (mode p) v (endFrame p)
     (referenceImages p) (logoImage p) (styleImage p) (inputVideo p)
     (inputVideoObject p) (isLooping p).
Definition with_endFrame (v : option ImageFile.t) (p : t) : t :=
  mk (prompt p) (model p) (aspectRatio p) (resolution p) (mode p) (startFrame p) v
     (referenceImages p) (logoImage p) (styleImage p) (inputVideo p)
     (inputVideoObject p) (isLooping p).
Definition with_styleImage (v : option ImageFile.t) (p : t) : t :=
  mk (prompt p) (model p) (aspectRatio p) (resolution p) (mode p) (startFrame p)
     (endFrame p) (referenceImages p) (logoImage p) v (inputVideo p)
     (inputVideoObject p) (isLooping p).
Definition with_inputVideo (v : option VideoFile.t) (p : t) : t :=
  mk (prompt p) (model p) (aspectRatio p) (resolution p) (mode p) (startFrame p)
     (endFrame p) (referenceImages p) (logoImage p) (styleImage p) v
     (inputVideoObject p) (isLooping p).
Definition with_inputVideoObject (v : option Video.t) (p : t) : t :=
  mk (prompt p) (model p) (aspectRatio p) (resolution p) (mode p) (startFrame p)
     (endFrame p) (referenceImages p) (logoImage p) (styleImage p) (inputVideo p)
     v (isLooping p).
Definition with_isLooping (v : option bool) (p : t) : t :=
  mk (prompt p) (model p) (aspectRatio p) (resolution p) (mode p) (startFrame p)
     (endFrame p) (referenceImages p) (logoImage p) (styleImage p) (inputVideo p)
     (inputVideoObject p) v.
End GenerateVideoParams.

(** ** The request objects handed to the SDK *)

Module Image.
Record t := mk { imageBytes : string; mimeType : string }.
End Image.

Inductive VideoGenerationReferenceType := ASSET | STYLE.

Module VideoGenerationReferenceImage.
Record t := mk
  { image : Image.t;
    referenceType : VideoGenerationReferenceType }.
End VideoGenerationReferenceImage.

(** [config]: [numberOfVideos] and [resolution] are set by the object
    literal, the other three only by a later assignment. *)
Module Config.
Record t := mk
  { numberOfVideos : N;
    resolution : Resolution;
    aspectRatio : option AspectRatio;
    referenceImages : option (list VideoGenerationReferenceImage.t);
    lastFrame : option Image.t }.

Definition set_aspectRatio (v : AspectRatio) (c : t) : t :=
  mk (numberOfVideos c) (resolution c) (Some v) (referenceImages c) (lastFrame c).
Definition set_referenceImages (v : list VideoGenerationReferenceImage.t) (c : t) : t :=
  mk (numberOfVideos c) (resolution c) (aspectRatio c) (Some v) (lastFrame c).
Definition set_lastFrame (v : Image.t) (c : t) : t :=
  mk (numberOfVideos c) (resolution c) (aspectRatio c) (referenceImages c) (Some v).
End Config.

(** [generateVideoPayload]: [model] and [config] are set by the object
    literal, [prompt], [image] and [video] only by a later assignment. *)
Module Payload.
Record t := mk
  { model : VeoModel;
    config : Config.t;
    prompt : option string;
    image : option Image.t;
    video : option Video.t }.

Definition set_prompt (v : string) (p : t) : t :=
  mk (model p) (config p) (Some v) (image p) (video p).
Definition set_image (v : Image.t) (p : t) : t :=
  mk (model p) (config p) (prompt p) (Some v) (video p).
Definition set_video (v : Video.t) (p : t) : t :=
  mk (model p) (config p) (prompt p) (image p) (Some v).
(** [generateVideoPayload.config.f = v]: [config] is the one object the
    payload refers to, so the assignment is seen through the payload. *)
Definition upd_config (f : Config.t -> Config.t) (p : t) : t :=
  mk (model p) (f (config p)) (prompt p) (image p) (video p).
End Payload.

(** ** JavaScript values *)

(** A thrown value: an [Error] object with its constructor's name. *)
Module JsError.
Record t := mk { name : string; message : string }.
End JsError.

(** [new Error(message)] *)
Definition Error (message : string) : JsError.t := JsError.mk "Error" message.
Definition TypeError (message : string) : JsError.t := JsError.mk "TypeError" message.

(** Truthiness of a string: every string but the empty one. *)
Definition truthy_string (s : string) : bool :=
  match s with
  | EmptyString => false
  | String _ _ => true
  end.

(** Truthiness of an optional boolean. *)
Definition truthy_bool (o : option bool) : bool :=
  match o with
  | Some b => b
  | None => false
  end.

(** [`${x}`] for an optional string: [undefined] prints as its name. *)
Definition template_opt (o : option string) : string :=
  match o with
  | Some s => s
  | None => "undefined"
  end.

(** [`${n}`] for a non-negative integer. *)
Definition template_num (n : N) : string :=
  NilZero.string_of_uint (N.to_uint n).

(** ** generateVideo, lines 81-152: the assembly of the request *)

(** The object an [ImageFile] is sent as. *)
Definition imageOf (img : ImageFile.t) : Image.t :=
  Image.mk (ImageFile.base64 img) (File.type (ImageFile.file img)).

(** The element pushed on [referenceImagesPayload] for an [ImageFile]. *)
Definition assetOf (img : ImageFile.t) : VideoGenerationReferenceImage.t :=
  VideoGenerationReferenceImage.mk (imageOf img) ASSET.

(** Lines 81-88. *)
Definition config (params : GenerateVideoParams.t) : Config.t :=
  let config :=
    Config.mk 1 (GenerateVideoParams.resolution params) None None None in
  if negb (GenerationMode_eqb (GenerateVideoParams.mode params) EXTEND_VIDEO)
  then Config.set_aspectRatio (GenerateVideoParams.aspectRatio params) config
  else config.

(** One turn of the loop of lines 112-122. *)
Definition pushReference (referenceImagesPayload : list VideoGenerationReferenceImage.t)
    (img : ImageFile.t) : list VideoGenerationReferenceImage.t :=
  if length referenceImagesPayload <? 3
  then referenceImagesPayload ++ [assetOf img]
  else referenceImagesPayload.

(** Lines 99-123. *)
Definition referenceImagesPayload (params : GenerateVideoParams.t)
    : list VideoGenerationReferenceImage.t :=
  let referenceImagesPayload := [] in
  let referenceImagesPayload :=
    match GenerateVideoParams.logoImage params with
    | Some logoImage => referenceImagesPayload ++ [assetOf logoImage]
    | None => referenceImagesPayload
    end in
  match GenerateVideoParams.referenceImages params with
  | Some referenceImages =>
      fold_left pushReference referenceImages referenceImagesPayload
  | None => referenceImagesPayload
  end.

(** Lines 81-152: the payload [ai.models.generateVideos] is called with,
    or the error thrown before the call. *)
Definition generateVideoPayload (params : GenerateVideoParams.t)
    : JsError.t + Payload.t :=
  let generateVideoPayload :=
    Payload.mk (GenerateVideoParams.model params) (config params) None None None in
  let generateVideoPayload :=
    if truthy_string (GenerateVideoParams.prompt params)
    then Payload.set_prompt (GenerateVideoParams.prompt params) generateVideoPayload
    else generateVideoPayload in
  let referenceImagesPayload := referenceImagesPayload params in
  let generateVideoPayload :=
    if 0 <? length referenceImagesPayload
    then Payload.upd_config (Config.set_referenceImages referenceImagesPayload)
           generateVideoPayload
    else generateVideoPayload in
  match GenerateVideoParams.mode params with
  | FRAMES_TO_VIDEO =>
      let generateVideoPayload :=
        match GenerateVideoParams.startFrame params with
        | Some startFrame => Payload.set_image (imageOf startFrame) generateVideoPayload
        | None => generateVideoPayload
        end in
      let finalEndFrame :=
        if truthy_bool (GenerateVideoParams.isLooping params)
        then GenerateVideoParams.startFrame params
        else GenerateVideoParams.endFrame params in
      match finalEndFrame with
      | Some finalEndFrame =>
          inr (Payload.upd_config (Config.set_lastFrame (imageOf finalEndFrame))
                 generateVideoPayload)
      | None => inr generateVideoPayload
      end
  | EXTEND_VIDEO =>
      match GenerateVideoParams.inputVideoObject params with
      | Some inputVideoObject =>
          inr (Payload.set_video inputVideoObject generateVideoPayload)
      | None =>
          inl (Error "An input video object is required to extend a video.")
      end
  | TEXT_TO_VIDEO | REFERENCES_TO_VIDEO => inr generateVideoPayload
  end.

(** ** askCatalogAssistant, lines 13-74: the constants *)

(** The double quote character, spliced into the literals below. *)
Definition dq : string := String (ascii_of_nat 34) EmptyString.

(** [CATALOG_DATA], lines 13-57. *)
Definition CATALOG_DATA : string :=
  ("
ANTÜ KÜYEN AGRO - CATÁLOGO COMERCIAL DIC 2025 - ENE 2026:

MISIÓN: " ++ dq ++ "Guardián de los Valles" ++ dq ++ ". Primera milla limpia, trazable y no-GMO en Arica, Chile.

PRODUCTOS Y DISPONIBILIDAD:
1. Tomates Beef (Suministro Asegurado):
   - ANTUMAY: Rústico, hermoso formato, homogéneo. (700 - 1000 toneladas/mes).
   - ALAMINA: Calidad postcosecha incomparable. Ideal invierno/primor. (100 - 300 toneladas/mes).
   - ATTIYA: Calibre grande, excelente cuaja en frío y baja luz. (100 - 300 toneladas/mes).

2. Tomates Cherry (Suministro Asegurado):
   - ROMANITA: Midi Plum, sabor y textura únicos. 7.5° Brix. (30 - 100 toneladas/mes).
   - NANCY: Planta vigorosa, color rojo intenso. 8.5° Brix. (30 - 100 toneladas/mes).
   - ORNELA: Grape indeterminado, maduración temprana. 7-8.5° Brix. (30 - 100 toneladas/mes).

3. Pimientos de Alta Calidad:
   - Achille (Verde: Vit C, K, ácido fólico).
   - Coraza (Rojo: paredes gruesas, vibrante).
   - Sven & Prosperity (Amarillo/Naranja: sabor dulce).
   - Disponibilidad total pimientos: 20 a 30 toneladas/mes.

4. Ajíes (Inferno, Fakur y otros):
   - Ají Híbrido Húngaro: Ciclo 85-95 días, 22-25 cm, alta pungencia.
   - Ají Hot Banana: Estructura grande, paredes gruesas, larga vida de anaquel.
   - Disponibilidad total ajíes: 20 a 30 toneladas/mes.

5. Cebolla Roja y Albahaca:
   - Cebolla Morada Rasta: Sabores únicos, textura crujiente, aroma intenso.
   - Albahaca Italiana: Hojas anchas, fragantes, ideal gourmet.
   - Disponibilidad conjunta: 40 a 80 toneladas/mes.

6. Zapallitos y Pepinos:
   - Zapallitos (Terminator, Romeral, Meteoro): Cilíndricos, Vit A, C, K.
   - Zapallito Bola 8: Gourmet, ideal para rellenos.
   - Pepino Ensalada (Fuseta, Javan, Cumlaude): Refrescante, Vit K y C.
   - Disponibilidad cada grupo: 20 a 30 toneladas/mes.

ESTRUCTURA CORPORATIVA (Holding Antü Küyen SpA):
Operador Agrofinanciero Regenerativo (OAR) con 20% margen neto objetivo 2026. Control de riesgo mediante matriz de 5 seguros.

CONTACTO:
Chile: Paolo Minguzzi (+56 9 6848 8698, p.minguzzi@agroantukuyen.com).
Argentina: Anuar Peche (+54 9 351 408 6291, Representación Técnica).
")%string.

(** The template literal of lines 64-68. *)
Definition systemInstruction : string :=
  ("Eres el Asistente Estratégico y Operativo de Antü Küyen Agro. Tu base de conocimiento es el Catálogo DIC 2025 - ENE 2026. 
      Proporciona datos exactos de disponibilidad (toneladas/mes) y grados Brix cuando se te pregunte. 
      Mantén el tono de " ++ dq ++ "Guardián de los Valles" ++ dq ++ ". Explica los beneficios nutricionales (Vitaminas C, K, antocianinas) y el modelo OAR (Operador Agrofinanciero Regenerativo).
      Si preguntan por contacto, menciona a Paolo Minguzzi para Chile y Anuar Peche para Argentina.
      Información del catálogo: " ++ CATALOG_DATA)%string.

(** ** What the provider hands back *)

Module Part.
Record t := mk { text : string }.
End Part.

(** An element of the [history] argument of [askCatalogAssistant]. *)
Module Content.
Record t := mk { role : string; parts : list Part.t }.
End Content.

(** The argument of [ai.chats.create]: the source sets [model] and
    [config.systemInstruction]; [history] is a field the SDK accepts. *)
Module Chat.
Record t := mk
  { model : string;
    systemInstruction : string;
    history : option (list Content.t) }.
End Chat.

(** The SDK's [GenerateContentResponse]: [text] may be [undefined]. *)
Module GenerateContentResponse.
Record t := mk { text : option string }.
End GenerateContentResponse.

Module GeneratedVideo.
Record t := mk { video : option Video.t }.
End GeneratedVideo.

Module GenerateVideosResponse.
Record t := mk { generatedVideos : option (list GeneratedVideo.t) }.
End GenerateVideosResponse.

(** The SDK's [GenerateVideosOperation]. *)
Module Operation.
Record t := mk
  { name : option string;
    done : option bool;
    response : option GenerateVideosResponse.t }.
End Operation.

Module Blob.
Record t := mk { bytes : string; type : string }.
End Blob.

(** The [Response] of [fetch]; [blob] is what [res.blob()] settles to. *)
Module Response.
Record t := mk { status : N; blob : JsError.t + Blob.t }.

(** [res.ok]: the status is in the range 200-299. *)
Definition ok (res : t) : bool :=
  ((200 <=? status res) && (status res <=? 299))%N.
End Response.

(** The value [generateVideo] resolves to. *)
Module GenerateVideoResult.
Record t := mk
  { objectUrl : string;
    blob : Blob.t;
    uri : string;
    video : Video.t }.
End GenerateVideoResult.

(** ** The SDK's client *)

Module GoogleGenAI.
Record t := mk { apiKey : string }.
End GoogleGenAI.

(** [new GoogleGenAI({apiKey})] in a browser, as lines 60 and 79 call it:
    the constructor of the SDK's browser build throws when [apiKey] is
    [null] or [undefined], and makes no call. *)
Definition newGoogleGenAI (apiKey : option string) : JsError.t + GoogleGenAI.t :=
  match apiKey with
  | Some key => inr (GoogleGenAI.mk key)
  | None => inl (Error "An API Key must be set when running in a browser")
  end.

(** ** Calls that leave the program *)

Inductive Call :=
| sendMessage_call (chat : Chat.t) (message : string)
| generateVideos_call (payload : Payload.t)
| setTimeout_call (ms : N)
| getVideosOperation_call (operation : Operation.t)
| fetch_call (url : string)
| createObjectURL_call (blob : Blob.t).

(** The calls that go over the network: all but the timer and the local
    object URL. *)
Definition isNetworkCall (c : Call) : bool :=
  match c with
  | setTimeout_call _ | createObjectURL_call _ => false
  | _ => true
  end.

Definition networkCalls (log : list Call) : list Call := filter isNetworkCall log.

(** How an awaited promise ends: resolved, rejected, or not settled within
    the number of polling rounds the run was given. *)
Inductive Outcome (A : Type) :=
| Returned (a : A)
| Thrown (e : JsError.t)
| Pending.

Arguments Thrown {A} e.
Arguments Pending {A}.

Section Service.

(** The state of everything outside the program. *)
Variable World : Type.

(** [process.env.API_KEY] *)
Variable API_KEY : option string.

(** The remote services and the browser functions the module calls. Each
    returns its result, or the error it rejects with, and the next state
    of the world. *)
Variable sendMessage :
  Chat.t -> string -> World -> (JsError.t + GenerateContentResponse.t) * World.
Variable generateVideos :
  Payload.t -> World -> (JsError.t + Operation.t) * World.
Variable getVideosOperation :
  Operation.t -> World -> (JsError.t + Operation.t) * World.
Variable fetch : string -> World -> (JsError.t + Response.t) * World.
Variable createObjectURL : Blob.t -> World -> string * World.
Variable decodeURIComponent : string -> JsError.t + string.

(** The world and the calls made so far, oldest first. *)
Record State := mkState { world : World; log : list Call }.

Definition Prog (A : Type) : Type := State -> Outcome A * State.

Definition ret {A} (a : A) : Prog A := fun st => (Returned a, st).

Definition throw {A} (e : JsError.t) : Prog A := fun st => (Thrown e, st).

Definition bind {A B} (m : Prog A) (k : A -> Prog B) : Prog B :=
  fun st =>
    match m st with
    | (Returned a, st') => k a st'
    | (Thrown e, st') => (Thrown e, st')
    | (Pending, st') => (Pending, st')
    end.

(** [await f(...)]: the call is logged, then settles as the world says. *)
Definition await {A} (c : Call) (f : World -> (JsError.t + A) * World) : Prog A :=
  fun st =>
    let (r, w) := f (world st) in
    let st' := mkState w (log st ++ [c]) in
    match r with
    | inl e => (Thrown e, st')
    | inr a => (Returned a, st')
    end.

(** A value or the exception of a synchronous call. *)
Definition lift {A} (r : JsError.t + A) : Prog A :=
  match r with
  | inl e => throw e
  | inr a => ret a
  end.

Notation "x <- m ;; k" := (bind m (fun x => k))
  (at level 61, m at next level, right associativity).
Notation "m ;; k" := (bind m (fun _ => k))
  (at level 61, right associativity).

(** Lines 59-74. *)
Definition askCatalogAssistant (prompt : string)
    (history : option (list Content.t)) : Prog (option string) :=
  let history := match history with Some h => h | None => [] end in
  ai <- lift (newGoogleGenAI API_KEY) ;;
  let chat := Chat.mk "gemini-3-flash-preview" systemInstruction None in
  response <- await (sendMessage_call chat prompt) (sendMessage chat prompt) ;;
  ret (GenerateContentResponse.text response).

(** Lines 156-159: the loop, run for at most [fuel] rounds. *)
Fixpoint poll (fuel : nat) (operation : Operation.t) : Prog Operation.t :=
  if truthy_bool (Operation.done operation) then ret operation
  else
    match fuel with
    | O => fun st => (Pending, st)
    | S fuel =>
        await (setTimeout_call 10000) (fun w => (inr tt, w)) ;;
        operation <- await (getVideosOperation_call operation)
                       (getVideosOperation operation) ;;
        poll fuel operation
    end.

(** Lines 161-178. *)
Definition collect (operation : Operation.t) : Prog GenerateVideoResult.t :=
  match Operation.response operation with
  | Some response =>
      let videos := GenerateVideosResponse.generatedVideos response in
      match videos with
      | None | Some [] => throw (Error "No videos generated.")
      | Some (firstVideo :: _) =>
          match GeneratedVideo.video firstVideo with
          | None =>
              throw (TypeError "Cannot read properties of undefined (reading 'uri')")
          | Some videoObject =>
              url <- lift (decodeURIComponent (template_opt (Video.uri videoObject))) ;;
              let target := (url ++ "&key=" ++ template_opt API_KEY)%string in
              res <- await (fetch_call target) (fetch target) ;;
              if negb (Response.ok res)
              then throw (Error ("Failed to fetch video: "
                                   ++ template_num (Response.status res))%string)
              else
                videoBlob <- lift (Response.blob res) ;;
                objectUrl <- await (createObjectURL_call videoBlob)
                               (fun w => let (u, w') := createObjectURL videoBlob w in
                                         (inr u, w')) ;;
                ret (GenerateVideoResult.mk objectUrl videoBlob url videoObject)
          end
      end
  | None => throw (Error "No videos generated.")
  end.

(** Lines 76-179. *)
Definition generateVideo (fuel : nat) (params : GenerateVideoParams.t)
    : Prog GenerateVideoResult.t :=
  ai <- lift (newGoogleGenAI API_KEY) ;;
  match generateVideoPayload params with
  | inl e => throw e
  | inr generateVideoPayload =>
      operation <- await (generateVideos_call generateVideoPayload)
                     (generateVideos generateVideoPayload) ;;
      operation <- poll fuel operation ;;
      collect operation
  end.

End Service.

(** ** Definitions the statements use *)

(** The images the list is built from: the logo, then the references. *)
Definition referenceSources (params : GenerateVideoParams.t) : list ImageFile.t :=
  match GenerateVideoParams.logoImage params with
  | Some logoImage => [logoImage]
  | None => []
  end ++
  match GenerateVideoParams.referenceImages params with
  | Some referenceImages => referenceImages
  | None => []
  end.

(** The end frame lines 137-139 select. *)
Definition finalEndFrame (params : GenerateVideoParams.t) : option ImageFile.t :=
  if truthy_bool (GenerateVideoParams.isLooping params)
  then GenerateVideoParams.startFrame params
  else GenerateVideoParams.endFrame params.

(** The session every chat call opens. *)
Definition session : Chat.t :=
  Chat.mk "gemini-3-flash-preview" systemInstruction None.

(** White space as [String.prototype.trim] removes it, on the ASCII range:
    tab, line feed, vertical tab, form feed, carriage return, space. *)
Definition isWhiteSpace (c : ascii) : bool :=
  match nat_of_ascii c with
  | 9 | 10 | 11 | 12 | 13 | 32 => true
  | _ => false
  end.

(** The specification's "whitespace-only string": at least one character,
    all of them white space. *)
Fixpoint allWhiteSpace (s : string) : bool :=
  match s with
  | EmptyString => true
  | String c s => isWhiteSpace c && allWhiteSpace s
  end.

Definition whitespaceOnly (s : string) : bool :=
  truthy_string s && allWhiteSpace s.

(** ** Sample requests *)

Definition png (name bytes : string) : ImageFile.t :=
  ImageFile.mk (File.mk name "image/png") bytes.

Definition logo : ImageFile.t := png "logo.png" "TE9HTw==".
Definition tomato : ImageFile.t := png "tomato.png" "VE9N".
Definition pepper : ImageFile.t := png "pepper.png" "UEVQ".
Definition onion : ImageFile.t := png "onion.png" "T05J".
Definition dawn : ImageFile.t := png "dawn.png" "REFXTg==".
Definition dusk : ImageFile.t := png "dusk.png" "RFVTSw==".

Definition clip : Video.t :=
  Video.mk (Some "https://provider.example/v/1%3Falt=media") None (Some "video/mp4").

(** A text-only request; the other samples replace fields of it. *)
Definition textRequest (prompt : string) : GenerateVideoParams.t :=
  GenerateVideoParams.mk prompt VEO_FAST LANDSCAPE P720 TEXT_TO_VIDEO
    None None (Some []) None None None None (Some false).

Definition request (mode : GenerationMode) (startFrame endFrame : option ImageFile.t)
    (referenceImages : list ImageFile.t) (logoImage : option ImageFile.t)
    (inputVideoObject : option Video.t) (isLooping : bool) : GenerateVideoParams.t :=
  GenerateVideoParams.mk "sunrise over a valley" VEO PORTRAIT P1080 mode
    startFrame endFrame (Some referenceImages) logoImage None None
    inputVideoObject (Some isLooping).

(** ** A scripted provider for the examples *)

Module Scripted.

(** The world counts the re-queries that still answer "not done". *)
Definition World : Type := nat.

(** A chat service that answers every message with [reply]. *)
Definition sendMessage (reply : option string) (chat : Chat.t) (message : string)
    (w : World) : (JsError.t + GenerateContentResponse.t) * World :=
  (inr (GenerateContentResponse.mk reply), w).

(** A chat service that is unreachable. *)
Definition sendMessage_down (chat : Chat.t) (message : string)
    (w : World) : (JsError.t + GenerateContentResponse.t) * World :=
  (inl (JsError.mk "ApiError" "401 Unauthorized"), w).

Definition started : Operation.t :=
  Operation.mk (Some "operations/1") None None.

Definition generateVideos (payload : Payload.t) (w : World)
    : (JsError.t + Operation.t) * World :=
  (inr started, w).

(** The operation ends as [final] once the counter is used up. *)
Definition getVideosOperation (final : Operation.t) (operation : Operation.t)
    (w : World) : (JsError.t + Operation.t) * World :=
  match w with
  | O => (inr final, O)
  | S w => (inr operation, w)
  end.

Definition finished (videos : option (list GeneratedVideo.t)) : Operation.t :=
  Operation.mk (Some "operations/1") (Some true)
    (Some (GenerateVideosResponse.mk videos)).

Definition mp4 : Blob.t := Blob.mk "AAAAIGZ0eXBpc29t" "video/mp4".

(** A file server that answers every request with [status]. *)
Definition fetch (status : N) (url : string) (w : World)
    : (JsError.t + Response.t) * World :=
  (inr (Response.mk status (inr mp4)), w).

Definition createObjectURL (blob : Blob.t) (w : World) : string * World :=
  ("blob:https://app.example/0001", w).

Definition hexDigit (c : ascii) : option nat :=
  let n := nat_of_ascii c in
  if (48 <=? n) && (n <=? 57) then Some (n - 48)
  else if (65 <=? n) && (n <=? 70) then Some (n - 55)
  else if (97 <=? n) && (n <=? 102) then Some (n - 87)
  else None.

(** [decodeURIComponent] on strings whose escapes are all of ASCII
    characters, which is what the examples use: an escape is replaced by
    its character, an incomplete one throws; an escape of a byte above
    127, which would need the bytes after it, is refused here. *)
Fixpoint decodeURIComponent (s : string) : JsError.t + string :=
  match s with
  | EmptyString => inr EmptyString
  | String "%" (String h (String l rest)) =>
      match hexDigit h, hexDigit l with
      | Some a, Some b =>
          if 16 * a + b <? 128 then
            match decodeURIComponent rest with
            | inr rest => inr (String (ascii_of_nat (16 * a + b)) rest)
            | inl e => inl e
            end
          else inl (JsError.mk "URIError" "URI malformed")
      | _, _ => inl (JsError.mk "URIError" "URI malformed")
      end
  | String "%" _ => inl (JsError.mk "URIError" "URI malformed")
  | String c rest =>
      match decodeURIComponent rest with
      | inr rest => inr (String c rest)
      | inl e => inl e
      end
  end.

Definition initial (polls : nat) : State World := mkState polls [].

End Scripted.

(** ** components/PromptForm.tsx *)

(** *** Strings as the form tests them

    A JavaScript string is held as the bytes of its UTF-8 encoding, so a
    white-space character of [String.prototype.trim] is one, two or three
    bytes long. *)

(** Tab, line feed, vertical tab, form feed, carriage return, space. *)
Definition whiteSpace1 (c : ascii) : bool :=
  match N_of_ascii c with
  | 9 | 10 | 11 | 12 | 13 | 32 => true
  | _ => false
  end%N.

(** U+00A0, the no-break space. *)
Definition whiteSpace2 (c1 c2 : ascii) : bool :=
  ((N_of_ascii c1 =? 194) && (N_of_ascii c2 =? 160))%N.

(** U+1680, U+2000 to U+200A, U+2028, U+2029, U+202F, U+205F, U+3000 and
    U+FEFF. *)
Definition whiteSpace3 (c1 c2 c3 : ascii) : bool :=
  let c := N_of_ascii c3 in
  match N_of_ascii c1, N_of_ascii c2 with
  | 225, 154 => c =? 128
  | 226, 128 =>
      ((128 <=? c) && (c <=? 138)) || (c =? 168) || (c =? 169) || (c =? 175)
  | 226, 129 => c =? 159
  | 227, 128 => c =? 128
  | 239, 187 => c =? 191
  | _, _ => false
  end%N.

(** [s.trimStart()] *)
Fixpoint trimStart (s : string) : string :=
  match s with
  | EmptyString => EmptyString
  | String c1 rest1 =>
      if whiteSpace1 c1 then trimStart rest1
      else
        match rest1 with
        | EmptyString => s
        | String c2 rest2 =>
            if whiteSpace2 c1 c2 then trimStart rest2
            else
              match rest2 with
              | EmptyString => s
              | String c3 rest3 =>
                  if whiteSpace3 c1 c2 c3 then trimStart rest3 else s
              end
        end
  end.

(** [!s.trim()]: what is left of [s] after [trim] is empty exactly when
    what is left after [trimStart] is, since trimming the end never removes
    a first character that is not white space. *)
Definition trimIsEmpty (s : string) : bool := negb (truthy_string (trimStart s)).

(** [s.split(sep)] for a separator of one character. *)
Fixpoint split (sep : ascii) (s : string) : list string :=
  match s with
  | EmptyString => [EmptyString]
  | String c rest =>
      if Ascii.eqb c sep then EmptyString :: split sep rest
      else
        match split sep rest with
        | piece :: pieces => String c piece :: pieces
        | [] => [String c EmptyString]
        end
  end.

(** Whether [sep] occurs in [s]. *)
Fixpoint occurs (sep : ascii) (s : string) : bool :=
  match s with
  | EmptyString => false
  | String c rest => Ascii.eqb c sep || occurs sep rest
  end.

(** Truthiness of an optional object: [null] and [undefined] are falsy. *)
Definition truthy_object {A} (o : option A) : bool :=
  match o with
  | Some _ => true
  | None => false
  end.

(** *** Lines 56-76: fileToBase64

    [read] is how [reader.readAsDataURL(file)] ends: [onload] with the
    [reader.result] string, or [onerror] with the value it reports. *)
Definition fileToBase64 {T} (mk : File.t -> string -> T) (file : File.t)
    (read : JsError.t + string) : JsError.t + T :=
  match read with
  | inr result =>
      match nth_error (split "," result) 1 with
      | Some base64 =>
          if truthy_string base64 then inr (mk file base64)
          else inl (Error "Failed to read file as base64.")
      | None => inl (Error "Failed to read file as base64.")
      end
  | inl error => inl error
  end.

Definition fileToImageFile : File.t -> JsError.t + string -> JsError.t + ImageFile.t :=
  fileToBase64 ImageFile.mk.

Definition fileToVideoFile : File.t -> JsError.t + string -> JsError.t + VideoFile.t :=
  fileToBase64 VideoFile.mk.

(** [EPIC_PROMPT_TEMPLATE], lines 46-54. *)
Definition EPIC_PROMPT_TEMPLATE : string :=
  ("Create one continuous 45-second commercial video with integrated scenes and coherent storytelling for “ANTÜ KÜYEN — PRIMERA MILLA LIMPIA”. Cinematic style, high-energy. 
SCENE FLOW: 
1) Sunrise drone over Arica valley. 
2) Hero close-up of local producer. 
3) Macro harvest of premium tomatoes. 
4) Branded truck launch. 
5) Tech scanner showing traceability. 
6) Final packshot with BRAND LOGO on clean background.
Text on screen: " ++ dq ++ "MISIÓN" ++ dq ++ ", " ++ dq ++ "ORIGEN LIMPIO" ++ dq ++ ", " ++ dq ++ "TRAZABILIDAD TOTAL" ++ dq ++ ". Use the provided Logo and Product images as visual assets.")%string.

(** *** The state of the form, lines 245-279 *)

Module PromptForm.
Record t := mk
  { prompt : string;
    model : VeoModel;
    aspectRatio : AspectRatio;
    resolution : Resolution;
    generationMode : GenerationMode;
    startFrame : option ImageFile.t;
    endFrame : option ImageFile.t;
    referenceImages : list ImageFile.t;
    logoImage : option ImageFile.t;
    styleImage : option ImageFile.t;
    inputVideo : option VideoFile.t;
    inputVideoObject : option Video.t;
    isLooping : bool;
    isSettingsOpen : bool;
    isModeSelectorOpen : bool }.
End PromptForm.

(** [a ?? b] *)
Definition nullish {A} (a : option A) (b : A) : A :=
  match a with
  | Some v => v
  | None => b
  end.

(** Lines 245-279: the state of the first render. *)
Definition initialState (initialValues : option GenerateVideoParams.t) : PromptForm.t :=
  match initialValues with
  | Some v =>
      PromptForm.mk (GenerateVideoParams.prompt v) (GenerateVideoParams.model v)
        (GenerateVideoParams.aspectRatio v) (GenerateVideoParams.resolution v)
        (GenerateVideoParams.mode v) (GenerateVideoParams.startFrame v)
        (GenerateVideoParams.endFrame v)
        (nullish (GenerateVideoParams.referenceImages v) [])
        (GenerateVideoParams.logoImage v) (GenerateVideoParams.styleImage v)
        (GenerateVideoParams.inputVideo v) (GenerateVideoParams.inputVideoObject v)
        (nullish (GenerateVideoParams.isLooping v) false) false false
  | None =>
      PromptForm.mk "" VEO_FAST LANDSCAPE P720 TEXT_TO_VIDEO None None [] None None
        None None false false false
  end.

(** Lines 293-309: the effect on [initialValues]. *)
Definition initialValuesEffect (initialValues : option GenerateVideoParams.t)
    (f : PromptForm.t) : PromptForm.t :=
  match initialValues with
  | Some v =>
      PromptForm.mk (GenerateVideoParams.prompt v) (GenerateVideoParams.model v)
        (GenerateVideoParams.aspectRatio v) (GenerateVideoParams.resolution v)
        (GenerateVideoParams.mode v) (GenerateVideoParams.startFrame v)
        (GenerateVideoParams.endFrame v)
        (nullish (GenerateVideoParams.referenceImages v) [])
        (GenerateVideoParams.logoImage v) (GenerateVideoParams.styleImage v)
        (GenerateVideoParams.inputVideo v) (GenerateVideoParams.inputVideoObject v)
        (nullish (GenerateVideoParams.isLooping v) false)
        (PromptForm.isSettingsOpen f) (PromptForm.isModeSelectorOpen f)
  | None => f
  end.

(** Lines 311-319: the effect on [generationMode]. *)
Definition generationModeEffect (f : PromptForm.t) : PromptForm.t :=
  match PromptForm.generationMode f with
  | REFERENCES_TO_VIDEO =>
      PromptForm.mk (PromptForm.prompt f) VEO LANDSCAPE P720
        (PromptForm.generationMode f) (PromptForm.startFrame f) (PromptForm.endFrame f)
        (PromptForm.referenceImages f) (PromptForm.logoImage f) (PromptForm.styleImage f)
        (PromptForm.inputVideo f) (PromptForm.inputVideoObject f) (PromptForm.isLooping f)
        (PromptForm.isSettingsOpen f) (PromptForm.isModeSelectorOpen f)
  | EXTEND_VIDEO =>
      PromptForm.mk (PromptForm.prompt f) (PromptForm.model f) (PromptForm.aspectRatio f)
        P720
        (PromptForm.generationMode f) (PromptForm.startFrame f) (PromptForm.endFrame f)
        (PromptForm.referenceImages f) (PromptForm.logoImage f) (PromptForm.styleImage f)
        (PromptForm.inputVideo f) (PromptForm.inputVideoObject f) (PromptForm.isLooping f)
        (PromptForm.isSettingsOpen f) (PromptForm.isModeSelectorOpen f)
  | TEXT_TO_VIDEO | FRAMES_TO_VIDEO => f
  end.

(** The form once mounted: the first render, then the two effects in the
    order the component declares them. *)
Definition mount (initialValues : option GenerateVideoParams.t) : PromptForm.t :=
  generationModeEffect (initialValuesEffect initialValues (initialState initialValues)).

(** Lines 342-377: the bundle [handleSubmit] passes to [onGenerate]. *)
Definition handleSubmit (f : PromptForm.t) : GenerateVideoParams.t :=
  GenerateVideoParams.mk (PromptForm.prompt f) (PromptForm.model f)
    (PromptForm.aspectRatio f) (PromptForm.resolution f) (PromptForm.generationMode f)
    (PromptForm.startFrame f) (PromptForm.endFrame f)
    (Some (PromptForm.referenceImages f)) (PromptForm.logoImage f)
    (PromptForm.styleImage f) (PromptForm.inputVideo f) (PromptForm.inputVideoObject f)
    (Some (PromptForm.isLooping f)).

(** Lines 379-390. *)
Definition handleSelectMode (mode : GenerationMode) (f : PromptForm.t) : PromptForm.t :=
  PromptForm.mk (PromptForm.prompt f) (PromptForm.model f) (PromptForm.aspectRatio f)
    (PromptForm.resolution f) mode None None [] None None None None false
    (PromptForm.isSettingsOpen f) false.

(** Lines 392-396. *)
Definition loadTemplate (f : PromptForm.t) : PromptForm.t :=
  PromptForm.mk EPIC_PROMPT_TEMPLATE VEO (PromptForm.aspectRatio f)
    (PromptForm.resolution f) REFERENCES_TO_VIDEO
    (PromptForm.startFrame f) (PromptForm.endFrame f)
    (PromptForm.referenceImages f) (PromptForm.logoImage f) (PromptForm.styleImage f)
    (PromptForm.inputVideo f) (PromptForm.inputVideoObject f) (PromptForm.isLooping f)
    (PromptForm.isSettingsOpen f) (PromptForm.isModeSelectorOpen f).

(** Lines 515-550: [isSubmitDisabled] and [tooltipText] as the switch
    leaves them. *)
Definition submitGate (f : PromptForm.t) : bool * string :=
  match PromptForm.generationMode f with
  | TEXT_TO_VIDEO =>
      let isSubmitDisabled := trimIsEmpty (PromptForm.prompt f) in
      (isSubmitDisabled,
       if isSubmitDisabled then "Please enter a prompt." else "")
  | FRAMES_TO_VIDEO =>
      let isSubmitDisabled := negb (truthy_object (PromptForm.startFrame f)) in
      (isSubmitDisabled,
       if isSubmitDisabled then "A start frame is required." else "")
  | REFERENCES_TO_VIDEO =>
      let hasNoRefs :=
        (length (PromptForm.referenceImages f) =? 0)
        && negb (truthy_object (PromptForm.logoImage f)) in
      let hasNoPrompt := trimIsEmpty (PromptForm.prompt f) in
      (hasNoRefs || hasNoPrompt,
       if hasNoRefs && hasNoPrompt
       then "Please add reference image(s) or logo and enter a prompt."
       else if hasNoRefs
       then "At least one reference image (logo or product) is required."
       else if hasNoPrompt then "Please enter a prompt."
       else "")
  | EXTEND_VIDEO =>
      let isSubmitDisabled := negb (truthy_object (PromptForm.inputVideoObject f)) in
      (isSubmitDisabled,
       if isSubmitDisabled
       then "An input video from a previous generation is required to extend."
       else "")
  end.

Definition isSubmitDisabled (f : PromptForm.t) : bool := fst (submitGate f).

Definition tooltipText (f : PromptForm.t) : string := snd (submitGate f).

(** ** The App component: the two handlers that call the service *)

Inductive AppState := IDLE | LOADING | SUCCESS | ERROR.

Inductive ViewMode := CATALOG | CORPORATE | AI_ASSISTANT | VIDEO_STUDIO.

(** The [role] of a [ChatMessage]: ['user'] or ['model']. *)
Inductive ChatRole := role_user | role_model.

Module ChatMessage.
Record t := mk { role : ChatRole; text : string }.
End ChatMessage.

(** The state of [App]. *)
Module App.
Record t := mk
  { view : ViewMode;
    appState : AppState;
    videoUrl : option string;
    errorMessage : option string;
    showApiKeyDialog : bool;
    chatMessages : list ChatMessage.t;
    chatInput : string;
    isChatLoading : bool }.

Definition setAppState (v : AppState) (a : t) : t :=
  mk (view a) v (videoUrl a) (errorMessage a) (showApiKeyDialog a) (chatMessages a)
     (chatInput a) (isChatLoading a).
Definition setVideoUrl (v : option string) (a : t) : t :=
  mk (view a) (appState a) v (errorMessage a) (showApiKeyDialog a) (chatMessages a)
     (chatInput a) (isChatLoading a).
Definition setErrorMessage (v : option string) (a : t) : t :=
  mk (view a) (appState a) (videoUrl a) v (showApiKeyDialog a) (chatMessages a)
     (chatInput a) (isChatLoading a).
Definition setShowApiKeyDialog (v : bool) (a : t) : t :=
  mk (view a) (appState a) (videoUrl a) (errorMessage a) v (chatMessages a)
     (chatInput a) (isChatLoading a).
(** [setChatMessages(prev => [...prev, m])] *)
Definition pushChatMessage (m : ChatMessage.t) (a : t) : t :=
  mk (view a) (appState a) (videoUrl a) (errorMessage a) (showApiKeyDialog a)
     (chatMessages a ++ [m]) (chatInput a) (isChatLoading a).
Definition setChatInput (v : string) (a : t) : t :=
  mk (view a) (appState a) (videoUrl a) (errorMessage a) (showApiKeyDialog a)
     (chatMessages a) v (isChatLoading a).
Definition setIsChatLoading (v : bool) (a : t) : t :=
  mk (view a) (appState a) (videoUrl a) (errorMessage a) (showApiKeyDialog a)
     (chatMessages a) (chatInput a) v.
End App.

(** The greeting the transcript starts with. *)
Definition welcome : ChatMessage.t :=
  ChatMessage.mk role_model
    ("Bienvenido al Catálogo 2025-2026 de Antü Küyen. Soy el " ++ dq
       ++ "Arquitecto del cumplimiento productivo" ++ dq
       ++ ". ¿Deseas consultar sobre disponibilidad de tomates beef, brix de cherrys o nuestro plan financiero?")%string.

(** Lines 80-89 of the App component: the state of the first render. *)
Definition App_initial : App.t :=
  App.mk CATALOG IDLE None None false [welcome] "" false.

(** [response || fallback] on an optional string. *)
Definition orElse (response : option string) (fallback : string) : string :=
  match response with
  | Some text => if truthy_string text then text else fallback
  | None => fallback
  end.

Section Handlers.

Variable World : Type.
Variable API_KEY : option string.
Variable sendMessage :
  Chat.t -> string -> World -> (JsError.t + GenerateContentResponse.t) * World.
Variable generateVideos :
  Payload.t -> World -> (JsError.t + Operation.t) * World.
Variable getVideosOperation :
  Operation.t -> World -> (JsError.t + Operation.t) * World.
Variable fetch : string -> World -> (JsError.t + Response.t) * World.
Variable createObjectURL : Blob.t -> World -> string * World.
Variable decodeURIComponent : string -> JsError.t + string.

(** [window.aistudio]: absent, or the host whose [hasSelectedApiKey] can
    be asked.  The question goes to the host page, not to the provider, and
    is not entered in the log. *)
Variable aistudio : option (World -> (JsError.t + bool) * World).

(** How a handler ends, and the state of [App] it leaves. *)
Definition Handled : Type := Outcome unit * App.t * State World.

(** Lines 116-125 of the App component: [handleGenerate] once the key
    check has passed. *)
Definition generate (fuel : nat) (params : GenerateVideoParams.t) (app : App.t)
    (st : State World) : Handled :=
  let app := App.setAppState LOADING app in
  let app := App.setErrorMessage None app in
  match generateVideo API_KEY generateVideos getVideosOperation fetch createObjectURL
          decodeURIComponent fuel params st with
  | (Returned result, st') =>
      let app := App.setVideoUrl (Some (GenerateVideoResult.objectUrl result)) app in
      (Returned tt, App.setAppState SUCCESS app, st')
  | (Thrown error, st') =>
      let message :=
        if truthy_string (JsError.message error) then JsError.message error
        else "An unknown error occurred." in
      let app := App.setErrorMessage (Some message) app in
      (Returned tt, App.setAppState ERROR app, st')
  | (Pending, st') => (Pending, app, st')
  end.

(** Lines 111-126 of the App component. *)
Definition handleGenerate (fuel : nat) (params : GenerateVideoParams.t) (app : App.t)
    (st : State World) : Handled :=
  match aistudio with
  | Some hasSelectedApiKey =>
      let (selected, w) := hasSelectedApiKey (world st) in
      let st := mkState w (log st) in
      match selected with
      | inl error => (Thrown error, app, st)
      | inr false => (Returned tt, App.setShowApiKeyDialog true app, st)
      | inr true => generate fuel params app st
      end
  | None => generate fuel params app st
  end.

(** Lines 128-143 of the App component. *)
Definition handleSendMessage (app : App.t) (st : State World) : Handled :=
  if trimIsEmpty (App.chatInput app) || App.isChatLoading app
  then (Returned tt, app, st)
  else
    let userMsg := App.chatInput app in
    let app := App.setChatInput "" app in
    let app := App.pushChatMessage (ChatMessage.mk role_user userMsg) app in
    let app := App.setIsChatLoading true app in
    match askCatalogAssistant API_KEY sendMessage userMsg None st with
    | (Returned response, st') =>
        let app :=
          App.pushChatMessage
            (ChatMessage.mk role_model (orElse response "No pude procesar eso.")) app in
        (Returned tt, App.setIsChatLoading false app, st')
    | (Thrown error, st') =>
        let app :=
          App.pushChatMessage
            (ChatMessage.mk role_model "Error de conexión con el asistente.") app in
        (Returned tt, App.setIsChatLoading false app, st')
    | (Pending, st') => (Pending, app, st')
    end.

End Handlers.

(** ** Definitions the later statements use *)

(** One round of the polling loop in the log: the timer, then the re-query
    of [operation]. *)
Definition requery (operation : Operation.t) : list Call :=
  [setTimeout_call 10000; getVideosOperation_call operation].

(** What [generateVideo] may log after the loop: nothing, the asset fetch,
    or the asset fetch and the object URL. *)
Definition assetCalls (tail : list Call) : Prop :=
  tail = []
  \/ (exists url, tail = [fetch_call url])
  \/ (exists url blob, tail = [fetch_call url; createObjectURL_call blob]).

(** A no-break space followed by a space: blank for [trim], not ASCII. *)
Definition nbspSpace : string :=
  String (ascii_of_nat 194) (String (ascii_of_nat 160) " ").

(** A host page that has no key selected, for the examples. *)
Definition noKeySelected (w : Scripted.World) : (JsError.t + bool) * Scripted.World :=
  (inr false, w).

(** * Properties *)

(** ** The reference-image list *)

Lemma pushReference_fold (imgs : list ImageFile.t) :
  forall acc, length acc <= 3 ->
    fold_left pushReference imgs acc = firstn 3 (acc ++ map assetOf imgs).
Proof.
  induction imgs as [|img imgs IH]; intros acc Hacc; cbn [fold_left map].
  - rewrite app_nil_r. symmetry. apply firstn_all2. exact Hacc.
  - unfold pushReference at 2.
    destruct (Nat.ltb_spec (length acc) 3) as [Hlt|Hge].
    + rewrite IH by (rewrite length_app; cbn; lia).
      rewrite <- app_assoc. reflexivity.
    + rewrite IH by exact Hacc.
      assert (Hlen : length acc = 3) by lia.
      rewrite !firstn_app, Hlen, Nat.sub_diag. reflexivity.
Qed.

Lemma referenceImagesPayload_firstn (params : GenerateVideoParams.t) :
  referenceImagesPayload params = firstn 3 (map assetOf (referenceSources params)).
Proof.
  unfold referenceImagesPayload, referenceSources.
  destruct (GenerateVideoParams.logoImage params) as [l|];
    destruct (GenerateVideoParams.referenceImages params) as [refs|];
    cbn [app map]; try reflexivity.
  - rewrite pushReference_fold by (cbn; lia). reflexivity.
  - rewrite pushReference_fold by (cbn; lia). reflexivity.
Qed.

(** Every field of a submitted payload, read off the request. *)
Lemma generateVideoPayload_fields (params : GenerateVideoParams.t) (payload : Payload.t) :
  generateVideoPayload params = inr payload ->
  Payload.model payload = GenerateVideoParams.model params
  /\ Payload.prompt payload =
       (if truthy_string (GenerateVideoParams.prompt params)
        then Some (GenerateVideoParams.prompt params) else None)
  /\ Payload.image payload =
       match GenerateVideoParams.mode params with
       | FRAMES_TO_VIDEO => option_map imageOf (GenerateVideoParams.startFrame params)
       | _ => None
       end
  /\ Payload.video payload =
       match GenerateVideoParams.mode params with
       | EXTEND_VIDEO => GenerateVideoParams.inputVideoObject params
       | _ => None
       end
  /\ Config.numberOfVideos (Payload.config payload) = 1%N
  /\ Config.resolution (Payload.config payload) = GenerateVideoParams.resolution params
  /\ Config.aspectRatio (Payload.config payload) =
       match GenerateVideoParams.mode params with
       | EXTEND_VIDEO => None
       | _ => Some (GenerateVideoParams.aspectRatio params)
       end
  /\ Config.referenceImages (Payload.config payload) =
       (if 0 <? length (referenceImagesPayload params)
        then Some (referenceImagesPayload params) else None)
  /\ Config.lastFrame (Payload.config payload) =
       match GenerateVideoParams.mode params with
       | FRAMES_TO_VIDEO => option_map imageOf (finalEndFrame params)
       | _ => None
       end.
Proof.
  unfold generateVideoPayload, finalEndFrame, config.
  destruct (truthy_string (GenerateVideoParams.prompt params));
    destruct (0 <? length (referenceImagesPayload params));
    destruct (GenerateVideoParams.mode params); cbn [negb GenerationMode_eqb];
    try destruct (GenerateVideoParams.startFrame params);
    try destruct (truthy_bool (GenerateVideoParams.isLooping params));
    try destruct (GenerateVideoParams.endFrame params);
    try destruct (GenerateVideoParams.inputVideoObject params);
    intros H; inversion H; subst; cbn; repeat split; reflexivity.
Qed.

(** The assembly throws only in extend mode, and only for a missing handle. *)
Lemma generateVideoPayload_inl (params : GenerateVideoParams.t) (e : JsError.t) :
  generateVideoPayload params = inl e <->
  GenerateVideoParams.mode params = EXTEND_VIDEO
  /\ GenerateVideoParams.inputVideoObject params = None
  /\ e = Error "An input video object is required to extend a video.".
Proof.
  unfold generateVideoPayload.
  destruct (GenerateVideoParams.mode params);
    try destruct (GenerateVideoParams.startFrame params);
    try destruct (truthy_bool (GenerateVideoParams.isLooping params));
    try destruct (GenerateVideoParams.endFrame params);
    try destruct (GenerateVideoParams.inputVideoObject params);
    cbn; split; intros H;
    try discriminate H;
    try (destruct H as (H1 & H2 & H3); discriminate);
    try (inversion H; subst; repeat split; reflexivity).
  all: destruct H as (_ & _ & ->); reflexivity.
Qed.

(** ** C9: the config object *)

(** C9. The config built by lines 81-88 has [numberOfVideos = 1] and the
    requested resolution, and has the requested aspect ratio exactly when
    the mode is not [EXTEND_VIDEO]; the config of every payload that is
    submitted still has these three fields so. *)
Theorem C9_config_fixed_fields (params : GenerateVideoParams.t) :
  (Config.numberOfVideos (config params) = 1%N
   /\ Config.resolution (config params) = GenerateVideoParams.resolution params
   /\ (Config.aspectRatio (config params)
       = Some (GenerateVideoParams.aspectRatio params)
       <-> GenerateVideoParams.mode params <> EXTEND_VIDEO)
   /\ (Config.aspectRatio (config params) = None
       <-> GenerateVideoParams.mode params = EXTEND_VIDEO))
  /\ forall payload, generateVideoPayload params = inr payload ->
       Config.numberOfVideos (Payload.config payload) = 1%N
       /\ Config.resolution (Payload.config payload)
          = GenerateVideoParams.resolution params
       /\ (Config.aspectRatio (Payload.config payload)
           = Some (GenerateVideoParams.aspectRatio params)
           <-> GenerateVideoParams.mode params <> EXTEND_VIDEO)
       /\ (Config.aspectRatio (Payload.config payload) = None
           <-> GenerateVideoParams.mode params = EXTEND_VIDEO).
Proof.
  split.
  - unfold config.
    destruct (GenerateVideoParams.mode params); cbn;
      repeat split; intros; congruence.
  - intros payload H.
    destruct (generateVideoPayload_fields _ H)
      as (_ & _ & _ & _ & Hn & Hr & Ha & _).
    rewrite Hn, Hr, Ha.
    destruct (GenerateVideoParams.mode params);
      repeat split; intros; congruence.
Qed.

Lemma C9_config_fixed_fields_witness :
  let params := request EXTEND_VIDEO None None [] None (Some clip) false in
  exists payload, generateVideoPayload params = inr payload
    /\ Config.numberOfVideos (Payload.config payload) = 1%N
    /\ Config.resolution (Payload.config payload) = P1080
    /\ Config.aspectRatio (Payload.config payload) = None.
Proof.
  intros params.
  destruct (C9_config_fixed_fields params) as [_ H].
  eexists. split; [reflexivity|].
  destruct (H _ eq_refl) as (Hn & Hr & _ & Ha).
  split; [exact Hn | split; [exact Hr | apply Ha; reflexivity]].
Defined.

(** ** C3: the prompt field *)

(** C3, as stated, fails: a prompt of one space is sent as it is. *)
Lemma C3_whitespace_prompt_is_sent :
  let params := textRequest " " in
  whitespaceOnly (GenerateVideoParams.prompt params) = true
  /\ (exists payload, generateVideoPayload params = inr payload
        /\ Payload.prompt payload = Some " ")
  /\ ~ (forall params payload,
          GenerateVideoParams.prompt params = ""
          \/ whitespaceOnly (GenerateVideoParams.prompt params) = true ->
          generateVideoPayload params = inr payload ->
          Payload.prompt payload = None).
Proof.
  intros params. split; [reflexivity|]. split.
  - eexists. split; reflexivity.
  - intros H.
    specialize (H params _ (or_intror eq_refl) eq_refl).
    discriminate H.
Qed.

(** C3, amended. The payload has no prompt field exactly when the prompt
    is the empty string; every other prompt, a whitespace-only one
    included, is sent unchanged. *)
Theorem C3_prompt_omitted_iff_empty
    (params : GenerateVideoParams.t) (payload : Payload.t) :
  generateVideoPayload params = inr payload ->
  (GenerateVideoParams.prompt params = "" -> Payload.prompt payload = None)
  /\ (GenerateVideoParams.prompt params <> "" ->
      Payload.prompt payload = Some (GenerateVideoParams.prompt params))
  /\ (Payload.prompt payload = None <-> GenerateVideoParams.prompt params = "").
Proof.
  intros H.
  destruct (generateVideoPayload_fields _ H) as (_ & Hp & _).
  rewrite Hp.
  destruct (GenerateVideoParams.prompt params) as [|c s]; cbn;
    repeat split; intros; congruence.
Qed.

Lemma C3_prompt_omitted_iff_empty_witness :
  exists payload, generateVideoPayload (request FRAMES_TO_VIDEO (Some dawn) None [] None None false)
                  = inr payload
    /\ Payload.prompt payload = Some "sunrise over a valley".
Proof.
  eexists. split; [reflexivity|].
  apply (C3_prompt_omitted_iff_empty
           (request FRAMES_TO_VIDEO (Some dawn) None [] None None false) eq_refl).
  discriminate.
Defined.

(** ** C4 and C10: looping frames *)

Lemma looping_ignores_endFrame
    (params : GenerateVideoParams.t) (otherEnd : option ImageFile.t) :
  GenerateVideoParams.mode params = FRAMES_TO_VIDEO ->
  GenerateVideoParams.isLooping params = Some true ->
  generateVideoPayload (GenerateVideoParams.with_endFrame otherEnd params)
  = generateVideoPayload params.
Proof.
  destruct params as [p m a r mode sf ef refs lg st iv ivo loop]; cbn.
  intros -> ->. reflexivity.
Qed.

(** C4. In [FRAMES_TO_VIDEO] mode with [isLooping] true the request is
    submitted, the [lastFrame] of its config is the start frame (the same
    object as the primary [image]), and replacing [endFrame] by any other
    value leaves the whole payload unchanged. *)
Theorem C4_looping_last_frame_is_start_frame
    (params : GenerateVideoParams.t) (otherEnd : option ImageFile.t) :
  GenerateVideoParams.mode params = FRAMES_TO_VIDEO ->
  GenerateVideoParams.isLooping params = Some true ->
  exists payload,
    generateVideoPayload params = inr payload
    /\ generateVideoPayload (GenerateVideoParams.with_endFrame otherEnd params)
       = inr payload
    /\ Config.lastFrame (Payload.config payload)
       = option_map imageOf (GenerateVideoParams.startFrame params)
    /\ Config.lastFrame (Payload.config payload) = Payload.image payload.
Proof.
  intros Hmode Hloop.
  destruct (generateVideoPayload params) as [e|payload] eqn:H.
  - apply generateVideoPayload_inl in H. destruct H as (H & _). congruence.
  - exists payload. split; [reflexivity|].
    destruct (generateVideoPayload_fields _ H)
      as (_ & _ & Hi & _ & _ & _ & _ & _ & Hl).
    rewrite Hmode in Hi, Hl. unfold finalEndFrame in Hl.
    rewrite Hloop in Hl. cbn in Hl.
    split; [|split; congruence].
    rewrite <- H. apply looping_ignores_endFrame; assumption.
Qed.

Lemma C4_looping_last_frame_is_start_frame_witness :
  exists payload,
    generateVideoPayload (request FRAMES_TO_VIDEO (Some dawn) (Some dusk) [] None None true)
    = inr payload
    /\ generateVideoPayload (request FRAMES_TO_VIDEO (Some dawn) None [] None None true)
       = inr payload
    /\ Config.lastFrame (Payload.config payload) = Some (imageOf dawn)
    /\ Config.lastFrame (Payload.config payload) = Payload.image payload.
Proof.
  exact (C4_looping_last_frame_is_start_frame
           (request FRAMES_TO_VIDEO (Some dawn) (Some dusk) [] None None true)
           None eq_refl eq_refl).
Defined.

(** C10. In [FRAMES_TO_VIDEO] mode with [isLooping] true and no start
    frame, the request is submitted with neither [image] nor [lastFrame],
    whatever [endFrame] holds. *)
Theorem C10_looping_without_start_sends_no_frame (params : GenerateVideoParams.t) :
  GenerateVideoParams.mode params = FRAMES_TO_VIDEO ->
  GenerateVideoParams.isLooping params = Some true ->
  GenerateVideoParams.startFrame params = None ->
  exists payload,
    generateVideoPayload params = inr payload
    /\ Payload.image payload = None
    /\ Config.lastFrame (Payload.config payload) = None.
Proof.
  intros Hmode Hloop Hstart.
  destruct (generateVideoPayload params) as [e|payload] eqn:H.
  - apply generateVideoPayload_inl in H. destruct H as (H & _). congruence.
  - exists payload. split; [reflexivity|].
    destruct (generateVideoPayload_fields _ H)
      as (_ & _ & Hi & _ & _ & _ & _ & _ & Hl).
    rewrite Hmode in Hi, Hl. unfold finalEndFrame in Hl.
    rewrite Hloop in Hl. cbn in Hl. rewrite Hstart in Hi, Hl.
    split; assumption.
Qed.

Lemma C10_looping_without_start_sends_no_frame_witness :
  GenerateVideoParams.endFrame (request FRAMES_TO_VIDEO None (Some dusk) [] None None true)
  = Some dusk
  /\ exists payload,
       generateVideoPayload (request FRAMES_TO_VIDEO None (Some dusk) [] None None true)
       = inr payload
       /\ Payload.image payload = None
       /\ Config.lastFrame (Payload.config payload) = None.
Proof.
  split; [reflexivity|].
  exact (C10_looping_without_start_sends_no_frame
           (request FRAMES_TO_VIDEO None (Some dusk) [] None None true)
           eq_refl eq_refl eq_refl).
Defined.

(** The explicit end frame on its own is sent when the request does not loop. *)
Example endFrame_alone_without_looping :
  exists payload,
    generateVideoPayload (request FRAMES_TO_VIDEO None (Some dusk) [] None None false)
    = inr payload
    /\ Payload.image payload = None
    /\ Config.lastFrame (Payload.config payload) = Some (imageOf dusk).
Proof. eexists. repeat split. Qed.

(** ** C5: the reference-image list *)

(** C5. The list built by lines 99-123 is the first three of: the logo
    (when present), then the reference images in their order.  So it never
    has more than three entries; a logo with more than two reference images
    gives exactly three, the logo first, then the first two references.
    The excess raises nothing: the assembly throws only for the missing
    handle of extend mode.  A submitted payload carries the list as
    [config.referenceImages] when it is non-empty and has no such field
    when it is empty. *)
Theorem C5_reference_images_capped (params : GenerateVideoParams.t) :
  let sent := referenceImagesPayload params in
  length sent <= 3
  /\ sent = firstn 3 (map assetOf (referenceSources params))
  /\ (forall logoImage referenceImages,
        GenerateVideoParams.logoImage params = Some logoImage ->
        GenerateVideoParams.referenceImages params = Some referenceImages ->
        1 + length referenceImages > 3 ->
        length sent = 3
        /\ sent = assetOf logoImage :: map assetOf (firstn 2 referenceImages))
  /\ (forall e, generateVideoPayload params = inl e ->
        GenerateVideoParams.mode params = EXTEND_VIDEO
        /\ GenerateVideoParams.inputVideoObject params = None)
  /\ (forall payload, generateVideoPayload params = inr payload ->
        (sent = [] -> Config.referenceImages (Payload.config payload) = None)
        /\ (sent <> [] ->
            Config.referenceImages (Payload.config payload) = Some sent)).
Proof.
  intros sent. subst sent.
  assert (Hfirst := referenceImagesPayload_firstn params).
  split; [rewrite Hfirst; apply firstn_le_length|].
  split; [exact Hfirst|].
  split; [|split].
  - intros g refs Hg Hrefs Hlen. rewrite Hfirst.
    unfold referenceSources. rewrite Hg, Hrefs.
    destruct refs as [|r1 [|r2 [|r3 refs]]]; cbn in Hlen; try lia.
    split; reflexivity.
  - intros e He. apply generateVideoPayload_inl in He.
    destruct He as (Hm & Hv & _). split; assumption.
  - intros payload H.
    destruct (generateVideoPayload_fields _ H)
      as (_ & _ & _ & _ & _ & _ & _ & Hr & _).
    rewrite Hr.
    destruct (referenceImagesPayload params); cbn; split; congruence.
Qed.

Lemma C5_reference_images_capped_witness :
  let params :=
    request REFERENCES_TO_VIDEO None None [tomato; pepper; onion] (Some logo) None false in
  referenceImagesPayload params = [assetOf logo; assetOf tomato; assetOf pepper]
  /\ length (referenceImagesPayload params) = 3
  /\ exists payload, generateVideoPayload params = inr payload
       /\ Config.referenceImages (Payload.config payload)
          = Some [assetOf logo; assetOf tomato; assetOf pepper].
Proof.
  intros params.
  destruct (C5_reference_images_capped params) as (_ & _ & Hcap & _ & Hsent).
  destruct (Hcap logo [tomato; pepper; onion] eq_refl eq_refl) as [Hlen Heq];
    [cbn; lia|].
  split; [exact Heq|]. split; [exact Hlen|].
  eexists. split; [reflexivity|].
  destruct (Hsent _ eq_refl) as [_ Hsome].
  apply Hsome. rewrite Heq. discriminate.
Defined.

(** Without a logo the first three reference images are sent. *)
Example four_references_no_logo :
  referenceImagesPayload
    (request REFERENCES_TO_VIDEO None None [tomato; pepper; onion; dawn] None None false)
  = [assetOf tomato; assetOf pepper; assetOf onion].
Proof. reflexivity. Qed.

(** ** C1: which request fields reach the payload *)

(** C1, as stated, fails: a logo and a reference image in a text-to-video
    request are sent as [config.referenceImages]. *)
Lemma C1_references_sent_in_text_mode :
  let params := request TEXT_TO_VIDEO None None [tomato] (Some logo) None false in
  (exists payload, generateVideoPayload params = inr payload
     /\ Config.referenceImages (Payload.config payload)
        = Some [assetOf logo; assetOf tomato])
  /\ ~ (forall params payload,
          generateVideoPayload params = inr payload ->
          GenerateVideoParams.mode params <> REFERENCES_TO_VIDEO ->
          Config.referenceImages (Payload.config payload) = None).
Proof.
  intros params. split.
  - eexists. split; reflexivity.
  - intros H.
    specialize (H params _ eq_refl ltac:(discriminate)).
    discriminate H.
Qed.

Lemma styleImage_inputVideo_unread (params : GenerateVideoParams.t)
    (style : option ImageFile.t) (raw : option VideoFile.t) :
  generateVideoPayload
    (GenerateVideoParams.with_styleImage style
       (GenerateVideoParams.with_inputVideo raw params))
  = generateVideoPayload params.
Proof. destruct params; reflexivity. Qed.

Lemma frames_unread_outside_frames_mode (params : GenerateVideoParams.t)
    (startFrame endFrame : option ImageFile.t) (isLooping : option bool) :
  GenerateVideoParams.mode params <> FRAMES_TO_VIDEO ->
  generateVideoPayload
    (GenerateVideoParams.with_startFrame startFrame
       (GenerateVideoParams.with_endFrame endFrame
          (GenerateVideoParams.with_isLooping isLooping params)))
  = generateVideoPayload params.
Proof.
  destruct params as [p m a r mode sf ef refs lg st iv ivo loop]; cbn.
  destruct mode; intros H; try reflexivity. contradiction H. reflexivity.
Qed.

Lemma handle_unread_outside_extend_mode (params : GenerateVideoParams.t)
    (inputVideoObject : option Video.t) :
  GenerateVideoParams.mode params <> EXTEND_VIDEO ->
  generateVideoPayload
    (GenerateVideoParams.with_inputVideoObject inputVideoObject params)
  = generateVideoPayload params.
Proof.
  destruct params as [p m a r mode sf ef refs lg st iv ivo loop]; cbn.
  destruct mode; intros H; try reflexivity. contradiction H. reflexivity.
Qed.

(** C1, amended. A submitted payload has [image] and [config.lastFrame]
    only in [FRAMES_TO_VIDEO] mode and [video] only in [EXTEND_VIDEO] mode;
    it does not depend on [styleImage] or [inputVideo] in any mode, on
    [startFrame], [endFrame] or [isLooping] outside [FRAMES_TO_VIDEO], or on
    [inputVideoObject] outside [EXTEND_VIDEO].  The reference-image list
    (logo, then reference images, at most three) is attached in every
    mode, whenever it is non-empty. *)
Theorem C1_projection_by_mode
    (params : GenerateVideoParams.t) (payload : Payload.t) :
  generateVideoPayload params = inr payload ->
  (GenerateVideoParams.mode params <> FRAMES_TO_VIDEO ->
     Payload.image payload = None
     /\ Config.lastFrame (Payload.config payload) = None
     /\ forall startFrame endFrame isLooping,
          generateVideoPayload
            (GenerateVideoParams.with_startFrame startFrame
               (GenerateVideoParams.with_endFrame endFrame
                  (GenerateVideoParams.with_isLooping isLooping params)))
          = inr payload)
  /\ (GenerateVideoParams.mode params <> EXTEND_VIDEO ->
        Payload.video payload = None
        /\ forall inputVideoObject,
             generateVideoPayload
               (GenerateVideoParams.with_inputVideoObject inputVideoObject params)
             = inr payload)
  /\ (forall styleImage inputVideo,
        generateVideoPayload
          (GenerateVideoParams.with_styleImage styleImage
             (GenerateVideoParams.with_inputVideo inputVideo params))
        = inr payload)
  /\ Config.referenceImages (Payload.config payload)
     = match referenceImagesPayload params with
       | [] => None
       | sent => Some sent
       end.
Proof.
  intros H.
  destruct (generateVideoPayload_fields _ H)
    as (_ & _ & Hi & Hv & _ & _ & _ & Hr & Hl).
  split; [|split; [|split]].
  - intros Hmode. rewrite Hi, Hl.
    split; [|split].
    + destruct (GenerateVideoParams.mode params); congruence.
    + destruct (GenerateVideoParams.mode params); congruence.
    + intros sf ef loop. rewrite <- H.
      apply frames_unread_outside_frames_mode. exact Hmode.
  - intros Hmode. rewrite Hv. split.
    + destruct (GenerateVideoParams.mode params); congruence.
    + intros h. rewrite <- H.
      apply handle_unread_outside_extend_mode. exact Hmode.
  - intros style raw. rewrite <- H. apply styleImage_inputVideo_unread.
  - rewrite Hr. destruct (referenceImagesPayload params); reflexivity.
Qed.

Lemma C1_projection_by_mode_witness :
  let params :=
    GenerateVideoParams.mk "sunrise over a valley" VEO LANDSCAPE P720 REFERENCES_TO_VIDEO
      (Some dawn) (Some dusk) (Some [tomato]) (Some logo) (Some onion) None
      (Some clip) (Some true) in
  exists payload, generateVideoPayload params = inr payload
    /\ Payload.image payload = None
    /\ Config.lastFrame (Payload.config payload) = None
    /\ Payload.video payload = None
    /\ Config.referenceImages (Payload.config payload)
       = Some [assetOf logo; assetOf tomato].
Proof.
  intros params. eexists. split; [reflexivity|].
  destruct (C1_projection_by_mode params eq_refl) as (Hf & Hx & _ & Hr).
  destruct (Hf ltac:(discriminate)) as (Hi & Hl & _).
  destruct (Hx ltac:(discriminate)) as (Hv & _).
  split; [exact Hi|]. split; [exact Hl|]. split; [exact Hv|]. exact Hr.
Defined.

(** ** The two workflows against any provider *)

Section ServiceFacts.

Variable World : Type.
Variable API_KEY : option string.
Variable sendMessage :
  Chat.t -> string -> World -> (JsError.t + GenerateContentResponse.t) * World.
Variable generateVideos :
  Payload.t -> World -> (JsError.t + Operation.t) * World.
Variable getVideosOperation :
  Operation.t -> World -> (JsError.t + Operation.t) * World.
Variable fetch : string -> World -> (JsError.t + Response.t) * World.
Variable createObjectURL : Blob.t -> World -> string * World.
Variable decodeURIComponent : string -> JsError.t + string.

Local Abbreviation run :=
  (generateVideo API_KEY generateVideos getVideosOperation fetch
     createObjectURL decodeURIComponent).
Local Abbreviation ask := (askCatalogAssistant API_KEY sendMessage).
Local Abbreviation wait := (poll getVideosOperation).

(** Without a key the client is not constructed and nothing else runs. *)
Lemma generateVideo_without_key (fuel : nat) (params : GenerateVideoParams.t)
    (st : State World) :
  API_KEY = None ->
  run fuel params st
  = (Thrown (Error "An API Key must be set when running in a browser"), st).
Proof. intros H. unfold generateVideo. rewrite H. reflexivity. Qed.

(** With a key the run starts at the assembly of the payload. *)
Lemma generateVideo_with_key (key : string) (fuel : nat)
    (params : GenerateVideoParams.t) (st : State World) :
  API_KEY = Some key ->
  run fuel params st
  = match generateVideoPayload params with
    | inl e => (Thrown e, st)
    | inr payload =>
        bind (await (generateVideos_call payload) (generateVideos payload))
          (fun operation =>
             bind (wait fuel operation)
               (collect API_KEY fetch createObjectURL decodeURIComponent)) st
    end.
Proof.
  intros H. unfold generateVideo. rewrite H at 1.
  destruct (generateVideoPayload params); reflexivity.
Qed.

Lemma key_set_or_unset : (exists key, API_KEY = Some key) \/ API_KEY = None.
Proof. destruct API_KEY as [key|]; [left; exists key; reflexivity | right; reflexivity]. Qed.

Lemma askCatalogAssistant_without_key (prompt : string)
    (history : option (list Content.t)) (st : State World) :
  API_KEY = None ->
  ask prompt history st
  = (Thrown (Error "An API Key must be set when running in a browser"), st).
Proof. intros H. unfold askCatalogAssistant. rewrite H. reflexivity. Qed.

Lemma askCatalogAssistant_with_key (key prompt : string)
    (history : option (list Content.t)) (st : State World) :
  API_KEY = Some key ->
  ask prompt history st
  = bind (await (sendMessage_call session prompt) (sendMessage session prompt))
      (fun response => ret (GenerateContentResponse.text response)) st.
Proof. intros H. unfold askCatalogAssistant. rewrite H. reflexivity. Qed.

Lemma await_inr {A} (c : Call) (f : World -> (JsError.t + A) * World)
    (st : State World) (a : A) (w : World) :
  f (world st) = (inr a, w) ->
  await c f st = (Returned a, mkState w (log st ++ [c])).
Proof. intros H. unfold await. rewrite H. reflexivity. Qed.

Lemma await_inl {A} (c : Call) (f : World -> (JsError.t + A) * World)
    (st : State World) (e : JsError.t) (w : World) :
  f (world st) = (inl e, w) ->
  await c f st = (Thrown e, mkState w (log st ++ [c])).
Proof. intros H. unfold await. rewrite H. reflexivity. Qed.

(** *** C2 *)

(** C2. In [EXTEND_VIDEO] mode without [inputVideoObject], [generateVideo]
    throws and leaves the state as it found it: nothing is submitted, and
    started from an empty log no network call is made.  With the API key
    set the error is the one of the missing video handle; with the key
    unset the client constructor has thrown before that. *)
Theorem C2_extend_without_handle_makes_no_call
    (fuel : nat) (params : GenerateVideoParams.t) (st : State World) :
  GenerateVideoParams.mode params = EXTEND_VIDEO ->
  GenerateVideoParams.inputVideoObject params = None ->
  (exists e,
      run fuel params st = (Thrown e, st)
      /\ (forall key, API_KEY = Some key ->
          e = Error "An input video object is required to extend a video.")
      /\ (API_KEY = None ->
          e = Error "An API Key must be set when running in a browser"))
  /\ forall w, networkCalls (log (snd (run fuel params (mkState w [])))) = [].
Proof.
  intros Hmode Hhandle.
  assert (H : generateVideoPayload params
              = inl (Error "An input video object is required to extend a video."))
    by (apply generateVideoPayload_inl; auto).
  destruct key_set_or_unset as [[key Hkey] | Hkey].
  - assert (Hrun : forall st0,
               run fuel params st0
               = (Thrown (Error "An input video object is required to extend a video."),
                  st0)).
    { intros st0. rewrite (generateVideo_with_key fuel params st0 Hkey), H.
      reflexivity. }
    split.
    + eexists. split; [apply Hrun|]. split; [reflexivity | congruence].
    + intros w. rewrite Hrun. reflexivity.
  - split.
    + eexists. split; [apply generateVideo_without_key; exact Hkey|].
      split; [congruence | reflexivity].
    + intros w. rewrite generateVideo_without_key by exact Hkey. reflexivity.
Qed.

(** *** C6 and C7 *)

(** C6, amended. With the API key set, [askCatalogAssistant] raises no
    error of its own: when the provider answers, the call resolves to the
    answer's [text], which is the absent value when the provider returned
    no text; when the provider call fails, that same error is the outcome;
    either way the one call made is the message to the fixed session.
    With the key unset the client constructor throws and no call is
    made. *)
Theorem C6_chat_returns_text_as_is
    (prompt : string) (history : option (list Content.t)) (st : State World) :
  (forall key response w,
      API_KEY = Some key ->
      sendMessage session prompt (world st) = (inr response, w) ->
      ask prompt history st
      = (Returned (GenerateContentResponse.text response),
         mkState w (log st ++ [sendMessage_call session prompt])))
  /\ (forall key e w,
        API_KEY = Some key ->
        sendMessage session prompt (world st) = (inl e, w) ->
        ask prompt history st
        = (Thrown e, mkState w (log st ++ [sendMessage_call session prompt])))
  /\ (API_KEY = None ->
      ask prompt history st
      = (Thrown (Error "An API Key must be set when running in a browser"), st)).
Proof.
  split; [|split].
  - intros key response w Hkey H.
    rewrite (askCatalogAssistant_with_key prompt history st Hkey).
    unfold bind. rewrite (await_inr _ _ _ H). reflexivity.
  - intros key e w Hkey H.
    rewrite (askCatalogAssistant_with_key prompt history st Hkey).
    unfold bind. rewrite (await_inl _ _ _ H). reflexivity.
  - apply askCatalogAssistant_without_key.
Qed.

(** C7. Two calls that differ only in the history argument, made in the
    same state against providers that answer the message to the fixed
    session alike, have the same outcome and the same final state.  With
    the API key set, the one call logged is the prompt sent to the session
    that holds the static system instruction and no history; with the key
    unset no call is logged at all. *)
Theorem C7_history_is_not_sent
    (sendMessage' : Chat.t -> string -> World ->
                    (JsError.t + GenerateContentResponse.t) * World)
    (prompt : string) (h1 h2 : option (list Content.t)) (st : State World) :
  sendMessage session prompt (world st) = sendMessage' session prompt (world st) ->
  ask prompt h1 st = askCatalogAssistant API_KEY sendMessage' prompt h2 st
  /\ ask prompt h1 st = ask prompt h2 st
  /\ (forall key, API_KEY = Some key ->
      log (snd (ask prompt h1 st)) = log st ++ [sendMessage_call session prompt])
  /\ (API_KEY = None -> log (snd (ask prompt h1 st)) = log st)
  /\ Chat.history session = None
  /\ Chat.systemInstruction session = systemInstruction.
Proof.
  intros H.
  split; [|split; [|split; [|split; [|split]]]]; try reflexivity.
  - unfold askCatalogAssistant. destruct (newGoogleGenAI API_KEY) as [e|ai];
      [reflexivity|].
    unfold lift, ret, bind, await. fold session. rewrite <- H. reflexivity.
  - intros key Hkey.
    rewrite (askCatalogAssistant_with_key prompt h1 st Hkey).
    unfold bind, await, ret.
    destruct (sendMessage session prompt (world st)) as [[e|r] w]; reflexivity.
  - intros Hkey. rewrite askCatalogAssistant_without_key by exact Hkey. reflexivity.
Qed.

(** *** C8 *)

(** One round of the loop on an operation that is not done. *)
Lemma poll_step (fuel : nat) (operation : Operation.t) (st : State World) :
  truthy_bool (Operation.done operation) = false ->
  wait (S fuel) operation st =
  let slept := log st ++ [setTimeout_call 10000] in
  match getVideosOperation operation (world st) with
  | (inr next, w) =>
      wait fuel next (mkState w (slept ++ [getVideosOperation_call operation]))
  | (inl e, w) =>
      (Thrown e, mkState w (slept ++ [getVideosOperation_call operation]))
  end.
Proof.
  intros Hd. cbn [poll]. rewrite Hd. unfold bind, await. cbn.
  destruct (getVideosOperation operation (world st)) as [[e|next] w]; reflexivity.
Qed.

Lemma poll_done (fuel : nat) (operation : Operation.t) (st : State World) :
  truthy_bool (Operation.done operation) = true ->
  wait fuel operation st = (Returned operation, st).
Proof. intros Hd. destruct fuel; cbn [poll]; rewrite Hd; reflexivity. Qed.

Lemma truthy_bool_true (o : option bool) : truthy_bool o = true -> o = Some true.
Proof. destruct o as [[|]|]; cbn; congruence. Qed.

(** The loop ends only on an operation whose [done] is true. *)
Lemma poll_returns_done (fuel : nat) :
  forall operation st final st',
    wait fuel operation st = (Returned final, st') ->
    Operation.done final = Some true.
Proof.
  induction fuel as [|fuel IH]; intros operation st final st' H;
    destruct (truthy_bool (Operation.done operation)) eqn:Hd.
  - rewrite (poll_done _ _ _ Hd) in H. inversion H; subst.
    apply truthy_bool_true, Hd.
  - cbn [poll] in H. rewrite Hd in H. discriminate H.
  - rewrite (poll_done _ _ _ Hd) in H. inversion H; subst.
    apply truthy_bool_true, Hd.
  - rewrite (poll_step _ _ _ Hd) in H. cbv zeta in H.
    destruct (getVideosOperation operation (world st)) as [[e|next] w];
      [discriminate H | eapply IH; exact H].
Qed.

(** More rounds do not change a run that ended. *)
Lemma poll_more_fuel (fuel : nat) :
  forall operation st final st' fuel',
    wait fuel operation st = (Returned final, st') ->
    fuel <= fuel' ->
    wait fuel' operation st = (Returned final, st').
Proof.
  induction fuel as [|fuel IH]; intros operation st final st' fuel' H Hle;
    destruct (truthy_bool (Operation.done operation)) eqn:Hd.
  - rewrite poll_done in H by exact Hd. rewrite poll_done by exact Hd. exact H.
  - cbn [poll] in H. rewrite Hd in H. discriminate H.
  - rewrite poll_done in H by exact Hd. rewrite poll_done by exact Hd. exact H.
  - destruct fuel' as [|fuel']; [lia|].
    rewrite poll_step in H by exact Hd. rewrite poll_step by exact Hd.
    cbv zeta in H |- *.
    destruct (getVideosOperation operation (world st)) as [[e|next] w];
      [discriminate H | apply IH; [exact H | lia]].
Qed.

(** [generateVideo] once the request is submitted and the loop has ended. *)
Lemma generateVideo_after_poll (key : string) (fuel : nat)
    (params : GenerateVideoParams.t)
    (payload : Payload.t) (st st1 : State World) (submitted final : Operation.t)
    (w0 : World) :
  API_KEY = Some key ->
  generateVideoPayload params = inr payload ->
  generateVideos payload (world st) = (inr submitted, w0) ->
  wait fuel submitted (mkState w0 (log st ++ [generateVideos_call payload]))
  = (Returned final, st1) ->
  run fuel params st
  = collect API_KEY fetch createObjectURL decodeURIComponent final st1.
Proof.
  intros Hkey Hp Hs Hw.
  rewrite (generateVideo_with_key fuel params st Hkey), Hp.
  unfold bind at 1. unfold bind at 1. rewrite (await_inr _ _ _ Hs), Hw. reflexivity.
Qed.

(** C8. Let the API key be set, let the request be submitted and let the
    polling loop end within [fuel] rounds on the operation [final].  Then [final] has [done] true,
    and with any number of rounds from [fuel] on:
    - if [final] has no response, or a response with no video list or an
      empty one, [generateVideo] throws "No videos generated." right after
      the loop;
    - otherwise, for the video object of the first entry and its decoded
      URI, the asset is fetched from that URL with the key appended, and a
      response whose status is outside 200-299 makes [generateVideo] throw
      "Failed to fetch video: " followed by the status. *)
Theorem C8_no_video_and_fetch_failure
    (key : string) (fuel : nat) (params : GenerateVideoParams.t) (payload : Payload.t)
    (st st1 : State World) (submitted final : Operation.t) (w0 : World) :
  API_KEY = Some key ->
  generateVideoPayload params = inr payload ->
  generateVideos payload (world st) = (inr submitted, w0) ->
  wait fuel submitted (mkState w0 (log st ++ [generateVideos_call payload]))
  = (Returned final, st1) ->
  forall fuel', fuel <= fuel' ->
  Operation.done final = Some true
  /\ ((Operation.response final = None
       \/ Operation.response final = Some (GenerateVideosResponse.mk None)
       \/ Operation.response final = Some (GenerateVideosResponse.mk (Some []))) ->
      run fuel' params st = (Thrown (Error "No videos generated."), st1))
  /\ (forall firstVideo rest videoObject url res w2,
        Operation.response final
        = Some (GenerateVideosResponse.mk (Some (firstVideo :: rest))) ->
        GeneratedVideo.video firstVideo = Some videoObject ->
        decodeURIComponent (template_opt (Video.uri videoObject)) = inr url ->
        let target := (url ++ "&key=" ++ key)%string in
        fetch target (world st1) = (inr res, w2) ->
        ((Response.status res <? 200) || (299 <? Response.status res))%N = true ->
        run fuel' params st
        = (Thrown (Error ("Failed to fetch video: "
                           ++ template_num (Response.status res))%string),
           mkState w2 (log st1 ++ [fetch_call target]))).
Proof.
  intros Hkey Hp Hs Hw fuel' Hle.
  split; [eapply poll_returns_done; exact Hw|].
  assert (Hw' := Hw). apply poll_more_fuel with (fuel' := fuel') in Hw'; [|exact Hle].
  split.
  - intros H.
    erewrite generateVideo_after_poll; [|exact Hkey|exact Hp|exact Hs|exact Hw'].
    unfold collect.
    destruct H as [H | [H | H]]; rewrite H; reflexivity.
  - intros firstVideo rest videoObject url res w2 Hr Hv Hu target Hf Hstatus.
    erewrite generateVideo_after_poll; [|exact Hkey|exact Hp|exact Hs|exact Hw'].
    rewrite Hkey. unfold collect.
    rewrite Hr. cbn. rewrite Hv, Hu. cbn. unfold bind at 1. cbn.
    unfold bind at 1. fold target. rewrite (await_inr _ _ _ Hf).
    assert (Hok : Response.ok res = false).
    { unfold Response.ok. apply Bool.orb_true_iff in Hstatus.
      destruct Hstatus as [H | H]; apply N.ltb_lt in H;
        apply Bool.andb_false_iff; [left | right]; apply N.leb_gt; exact H. }
    rewrite Hok. reflexivity.
Qed.

End ServiceFacts.

(** ** The workflows against the scripted provider *)

Lemma C2_extend_without_handle_makes_no_call_witness :
  let params := request EXTEND_VIDEO None None [logo] None None false in
  generateVideo (Some "KEY") Scripted.generateVideos
    (Scripted.getVideosOperation (Scripted.finished None)) (Scripted.fetch 200)
    Scripted.createObjectURL Scripted.decodeURIComponent 5 params (Scripted.initial 2)
  = (Thrown (Error "An input video object is required to extend a video."),
     Scripted.initial 2)
  /\ generateVideo None Scripted.generateVideos
       (Scripted.getVideosOperation (Scripted.finished None)) (Scripted.fetch 200)
       Scripted.createObjectURL Scripted.decodeURIComponent 5 params
       (Scripted.initial 2)
     = (Thrown (Error "An API Key must be set when running in a browser"),
        Scripted.initial 2).
Proof.
  intros params. split.
  - destruct (C2_extend_without_handle_makes_no_call (Some "KEY")
                Scripted.generateVideos
                (Scripted.getVideosOperation (Scripted.finished None))
                (Scripted.fetch 200) Scripted.createObjectURL
                Scripted.decodeURIComponent 5 params (Scripted.initial 2)
                eq_refl eq_refl) as [(e & Hrun & Hset & _) _].
    rewrite Hrun, (Hset "KEY" eq_refl). reflexivity.
  - destruct (C2_extend_without_handle_makes_no_call None
                Scripted.generateVideos
                (Scripted.getVideosOperation (Scripted.finished None))
                (Scripted.fetch 200) Scripted.createObjectURL
                Scripted.decodeURIComponent 5 params (Scripted.initial 2)
                eq_refl eq_refl) as [(e & Hrun & _ & Hunset) _].
    rewrite Hrun, (Hunset eq_refl). reflexivity.
Defined.

(** The same request with a handle is submitted. *)
Example extend_with_handle_is_submitted :
  let params := request EXTEND_VIDEO None None [] None (Some clip) false in
  exists payload,
    generateVideoPayload params = inr payload
    /\ Payload.video payload = Some clip
    /\ hd_error (log (snd (generateVideo (Some "KEY") Scripted.generateVideos
                        (Scripted.getVideosOperation (Scripted.finished None))
                        (Scripted.fetch 200) Scripted.createObjectURL
                        Scripted.decodeURIComponent 5 params (Scripted.initial 0))))
       = Some (generateVideos_call payload).
Proof. intros params. eexists. repeat split. Qed.

(** C6, as stated, fails: with the API key set, when the provider returns
    no text the call resolves to the absent value, and to the empty string
    when the provider returns the empty string; no error is raised. *)
Lemma C6_no_text_resolves_without_error :
  askCatalogAssistant (Some "KEY") (Scripted.sendMessage None) "Brix de NANCY?" None
    (Scripted.initial 0)
  = (Returned None, mkState 0 [sendMessage_call session "Brix de NANCY?"])
  /\ askCatalogAssistant (Some "KEY") (Scripted.sendMessage (Some "")) "" None
       (Scripted.initial 0)
     = (Returned (Some ""), mkState 0 [sendMessage_call session ""])
  /\ ~ (forall (sendMessage : Chat.t -> string -> Scripted.World ->
                    (JsError.t + GenerateContentResponse.t) * Scripted.World)
               prompt history st,
          (forall chat w, exists w',
              sendMessage chat prompt w = (inr (GenerateContentResponse.mk None), w')) ->
          exists e,
            fst (askCatalogAssistant (Some "KEY") sendMessage prompt history st)
            = Thrown e).
Proof.
  split; [reflexivity|]. split; [reflexivity|].
  intros H.
  destruct (H (Scripted.sendMessage None) "Brix de NANCY?" None (Scripted.initial 0))
    as [e He].
  - intros chat w. exists w. reflexivity.
  - discriminate He.
Qed.

Lemma C6_chat_returns_text_as_is_witness :
  askCatalogAssistant (Some "KEY") (Scripted.sendMessage None) "Brix de NANCY?" None
    (Scripted.initial 0)
  = (Returned None, mkState 0 [sendMessage_call session "Brix de NANCY?"])
  /\ askCatalogAssistant (Some "KEY") Scripted.sendMessage_down "Brix de NANCY?" None
       (Scripted.initial 0)
     = (Thrown (JsError.mk "ApiError" "401 Unauthorized"),
        mkState 0 [sendMessage_call session "Brix de NANCY?"])
  /\ askCatalogAssistant None (Scripted.sendMessage None) "Brix de NANCY?" None
       (Scripted.initial 0)
     = (Thrown (Error "An API Key must be set when running in a browser"),
        Scripted.initial 0).
Proof.
  split; [|split].
  - destruct (C6_chat_returns_text_as_is (Some "KEY") (Scripted.sendMessage None)
                "Brix de NANCY?" None (Scripted.initial 0)) as (H & _ & _).
    exact (H "KEY" (GenerateContentResponse.mk None) 0 eq_refl eq_refl).
  - destruct (C6_chat_returns_text_as_is (Some "KEY") Scripted.sendMessage_down
                "Brix de NANCY?" None (Scripted.initial 0)) as (_ & H & _).
    exact (H "KEY" (JsError.mk "ApiError" "401 Unauthorized") 0 eq_refl eq_refl).
  - destruct (C6_chat_returns_text_as_is None (Scripted.sendMessage None)
                "Brix de NANCY?" None (Scripted.initial 0)) as (_ & _ & H).
    exact (H eq_refl).
Defined.

Lemma C7_history_is_not_sent_witness :
  let earlier :=
    [Content.mk "user" [Part.mk "Hola"]; Content.mk "model" [Part.mk "Bienvenido"]] in
  askCatalogAssistant (Some "KEY") (Scripted.sendMessage (Some "8.5"))
    "Brix de NANCY?" None (Scripted.initial 0)
  = askCatalogAssistant (Some "KEY") (Scripted.sendMessage (Some "8.5"))
      "Brix de NANCY?" (Some earlier) (Scripted.initial 0)
  /\ log (snd (askCatalogAssistant (Some "KEY") (Scripted.sendMessage (Some "8.5"))
                 "Brix de NANCY?" None (Scripted.initial 0)))
     = [sendMessage_call session "Brix de NANCY?"].
Proof.
  intros earlier.
  destruct (C7_history_is_not_sent (Some "KEY") (Scripted.sendMessage (Some "8.5"))
              (Scripted.sendMessage (Some "8.5")) "Brix de NANCY?" None (Some earlier)
              (Scripted.initial 0) eq_refl) as (H & _ & Hlog & _).
  split; [exact H | exact (Hlog "KEY" eq_refl)].
Defined.

Lemma C8_no_video_and_fetch_failure_witness :
  let params := textRequest "sunrise over a valley" in
  let run final status :=
    generateVideo (Some "KEY") Scripted.generateVideos
      (Scripted.getVideosOperation final) (Scripted.fetch status)
      Scripted.createObjectURL Scripted.decodeURIComponent 10 params
      (Scripted.initial 2) in
  fst (run (Scripted.finished (Some [])) 200%N)
  = Thrown (Error "No videos generated.")
  /\ fst (run (Scripted.finished (Some [GeneratedVideo.mk (Some clip)])) 403%N)
     = Thrown (Error "Failed to fetch video: 403")
  /\ last (log (snd (run (Scripted.finished (Some [GeneratedVideo.mk (Some clip)]))
                       403%N)))
          (setTimeout_call 0)
     = fetch_call "https://provider.example/v/1?alt=media&key=KEY".
Proof.
  intros params run.
  assert (Hle : 3 <= 10) by lia.
  split; [|split].
  - edestruct (C8_no_video_and_fetch_failure (API_KEY := Some "KEY")
                 Scripted.generateVideos
                 (Scripted.getVideosOperation (Scripted.finished (Some [])))
                 (Scripted.fetch 200) Scripted.createObjectURL
                 Scripted.decodeURIComponent (fuel := 3) params
                 (Scripted.initial 2) eq_refl eq_refl eq_refl eq_refl Hle) as (_ & H & _).
    unfold run. rewrite H; [reflexivity|]. right; right; reflexivity.
  - edestruct (C8_no_video_and_fetch_failure (API_KEY := Some "KEY")
                 Scripted.generateVideos
                 (Scripted.getVideosOperation
                    (Scripted.finished (Some [GeneratedVideo.mk (Some clip)])))
                 (Scripted.fetch 403) Scripted.createObjectURL
                 Scripted.decodeURIComponent (fuel := 3) params
                 (Scripted.initial 2) eq_refl eq_refl eq_refl eq_refl Hle) as (_ & _ & H).
    exact (f_equal fst
             (H (GeneratedVideo.mk (Some clip)) [] clip
                "https://provider.example/v/1?alt=media"
                (Response.mk 403 (inr Scripted.mp4)) 0
                eq_refl eq_refl eq_refl eq_refl eq_refl)).
  - reflexivity.
Defined.

(** * Further properties of the service *)

Section ServiceCalls.

Variable World : Type.
Variable API_KEY : option string.
Variable generateVideos :
  Payload.t -> World -> (JsError.t + Operation.t) * World.
Variable getVideosOperation :
  Operation.t -> World -> (JsError.t + Operation.t) * World.
Variable fetch : string -> World -> (JsError.t + Response.t) * World.
Variable createObjectURL : Blob.t -> World -> string * World.
Variable decodeURIComponent : string -> JsError.t + string.

Local Abbreviation run :=
  (generateVideo API_KEY generateVideos getVideosOperation fetch
     createObjectURL decodeURIComponent).
Local Abbreviation wait := (poll getVideosOperation).
Local Abbreviation finish :=
  (collect API_KEY fetch createObjectURL decodeURIComponent).

(** X1. Let the API key be set, the request be submitted and the loop end
    within [fuel] rounds on [final], whose first entry has a video object with a URI that
    decodes to [url].  If the fetch of [url] with the key appended answers
    with a status in 200-299 and a readable body, [generateVideo] resolves
    to the object URL made for that body, the body, the decoded [url]
    without the key, and the provider's video object; the fetch and the
    object URL are the last two calls. *)
Theorem generateVideo_resolves
    (key : string)
    (fuel fuel' : nat) (params : GenerateVideoParams.t) (payload : Payload.t)
    (st st1 : State World) (submitted final : Operation.t) (w0 w2 w3 : World)
    (firstVideo : GeneratedVideo.t) (rest : list GeneratedVideo.t)
    (videoObject : Video.t) (url objectUrl : string) (res : Response.t)
    (videoBlob : Blob.t) :
  API_KEY = Some key ->
  generateVideoPayload params = inr payload ->
  generateVideos payload (world st) = (inr submitted, w0) ->
  wait fuel submitted (mkState w0 (log st ++ [generateVideos_call payload]))
  = (Returned final, st1) ->
  fuel <= fuel' ->
  Operation.response final
  = Some (GenerateVideosResponse.mk (Some (firstVideo :: rest))) ->
  GeneratedVideo.video firstVideo = Some videoObject ->
  decodeURIComponent (template_opt (Video.uri videoObject)) = inr url ->
  fetch (url ++ "&key=" ++ key)%string (world st1) = (inr res, w2) ->
  Response.ok res = true ->
  Response.blob res = inr videoBlob ->
  createObjectURL videoBlob w2 = (objectUrl, w3) ->
  run fuel' params st
  = (Returned (GenerateVideoResult.mk objectUrl videoBlob url videoObject),
     mkState w3
       (log st1 ++ [fetch_call (url ++ "&key=" ++ key)%string;
                    createObjectURL_call videoBlob])).
Proof.
  intros Hkey Hp Hs Hw Hle Hr Hv Hu Hf Hok Hb Hc.
  assert (Hw' := Hw). apply poll_more_fuel with (fuel' := fuel') in Hw'; [|exact Hle].
  erewrite generateVideo_after_poll; [|exact Hkey|exact Hp|exact Hs|exact Hw'].
  rewrite Hkey. unfold collect. rewrite Hr. cbn. rewrite Hv, Hu. cbn.
  unfold bind at 1. cbn. unfold bind at 1.
  rewrite (await_inr _ _ _ Hf). rewrite Hok. cbn.
  rewrite Hb. cbn. unfold bind, await, lift, ret. cbn. rewrite Hc. cbn.
  rewrite <- app_assoc. reflexivity.
Qed.

(** What the loop logs, however it ends. *)
Lemma poll_log (fuel : nat) :
  forall operation st,
  exists polled,
    log (snd (wait fuel operation st)) = log st ++ flat_map requery polled
    /\ length polled <= fuel
    /\ Forall (fun o => truthy_bool (Operation.done o) = false) polled.
Proof.
  induction fuel as [|fuel IH]; intros operation st;
    destruct (truthy_bool (Operation.done operation)) eqn:Hd.
  - exists []. rewrite poll_done by exact Hd. cbn. rewrite app_nil_r. auto.
  - exists []. cbn [poll]. rewrite Hd. cbn. rewrite app_nil_r. auto.
  - exists []. rewrite poll_done by exact Hd. cbn. rewrite app_nil_r.
    repeat split; [lia | constructor].
  - rewrite poll_step by exact Hd. cbv zeta.
    destruct (getVideosOperation operation (world st)) as [[e|next] w].
    + exists [operation]. cbn. rewrite <- app_assoc.
      repeat split; [lia | constructor; [exact Hd | constructor]].
    + destruct (IH next
                  (mkState w ((log st ++ [setTimeout_call 10000])
                                ++ [getVideosOperation_call operation])))
        as (polled & Hlog & Hlen & Hall).
      exists (operation :: polled). rewrite Hlog. cbn.
      rewrite <- !app_assoc. cbn.
      repeat split; [lia | constructor; assumption].
Qed.

Lemma bind_await_ret_log {A B} (c : Call) (f : World -> (JsError.t + A) * World)
    (g : A -> B) (st : State World) :
  log (snd (bind (await c f) (fun a => ret (g a)) st)) = log st ++ [c].
Proof.
  unfold bind, await, ret.
  destruct (f (world st)) as [[e|a] w]; reflexivity.
Qed.

(** What the steps after the loop log, however they end. *)
Lemma collect_log (operation : Operation.t) (st : State World) :
  exists tail, log (snd (finish operation st)) = log st ++ tail /\ assetCalls tail.
Proof.
  assert (Hnone : forall out : Outcome GenerateVideoResult.t,
             exists tail, log (snd (out, st)) = log st ++ tail /\ assetCalls tail).
  { intros out. exists []. cbn. rewrite app_nil_r. split; [reflexivity|left; reflexivity]. }
  unfold collect.
  destruct (Operation.response operation) as [response|]; [|apply Hnone].
  destruct (GenerateVideosResponse.generatedVideos response)
    as [[|firstVideo rest]|]; [apply Hnone| |apply Hnone].
  destruct (GeneratedVideo.video firstVideo) as [videoObject|]; [|apply Hnone].
  destruct (decodeURIComponent (template_opt (Video.uri videoObject))) as [e|url];
    [apply Hnone|].
  unfold lift at 1, ret at 1. unfold bind at 1. cbv beta iota zeta.
  set (target := (url ++ "&key=" ++ template_opt API_KEY)%string).
  unfold bind at 1, await at 1.
  destruct (fetch target (world st)) as [[e|res] w]; cbv beta iota zeta.
  { eexists. split; [reflexivity|]. right; left. eexists. reflexivity. }
  destruct (Response.ok res); cbv beta iota delta [negb].
  2:{ eexists. split; [reflexivity|]. right; left. eexists. reflexivity. }
  destruct (Response.blob res) as [e|videoBlob];
    unfold lift at 1; [unfold throw at 1|unfold ret at 1];
    unfold bind at 1; cbv beta iota.
  { eexists. split; [reflexivity|]. right; left. eexists. reflexivity. }
  rewrite bind_await_ret_log. cbn [log]. rewrite <- app_assoc.
  eexists. split; [reflexivity|].
  right; right. do 2 eexists. reflexivity.
Qed.

(** X2. With the API key set, whatever the provider does and however the
    run ends (resolved, rejected or still polling after [fuel] rounds), a
    request whose payload is assembled is submitted exactly once, as the
    first call; then come
    only rounds of a 10000 ms timer followed by a re-query of an operation
    that was not done, at most [fuel] of them; then at most one asset fetch
    and, after it, at most one object URL.  With the key unset the client
    constructor throws and no call is made at all. *)
Theorem generateVideo_call_discipline
    (fuel : nat) (params : GenerateVideoParams.t) (payload : Payload.t)
    (st : State World) :
  generateVideoPayload params = inr payload ->
  (forall key, API_KEY = Some key ->
     exists polled tail,
       log (snd (run fuel params st))
       = log st ++ generateVideos_call payload :: flat_map requery polled ++ tail
       /\ length polled <= fuel
       /\ Forall (fun o => truthy_bool (Operation.done o) = false) polled
       /\ assetCalls tail)
  /\ (API_KEY = None ->
      run fuel params st
      = (Thrown (Error "An API Key must be set when running in a browser"), st)).
Proof.
  intros Hp. split; [|apply generateVideo_without_key].
  intros key Hkey.
  rewrite generateVideo_with_key with (key := key) by exact Hkey. rewrite Hp.
  unfold bind at 1. unfold bind at 1. unfold await at 1.
  destruct (generateVideos payload (world st)) as [[e|submitted] w0].
  - exists [], []. cbn. repeat split; [lia | constructor | left; reflexivity].
  - set (st0 := mkState w0 (log st ++ [generateVideos_call payload])).
    destruct (poll_log fuel submitted st0) as (polled & Hlog & Hlen & Hall).
    destruct (wait fuel submitted st0) as [[final|e|] st1] eqn:Hw; cbn in Hlog.
    + destruct (collect_log final st1) as (tail & Htail & Hshape).
      exists polled, tail. rewrite Htail, Hlog. subst st0. cbn.
      rewrite <- !app_assoc. cbn. auto.
    + exists polled, []. cbn. rewrite Hlog. subst st0. cbn.
      rewrite app_nil_r, <- app_assoc. cbn.
      repeat split; [assumption | assumption | left; reflexivity].
    + exists polled, []. cbn. rewrite Hlog. subst st0. cbn.
      rewrite app_nil_r, <- app_assoc. cbn.
      repeat split; [assumption | assumption | left; reflexivity].
Qed.

End ServiceCalls.

Lemma generateVideo_resolves_witness :
  generateVideo (Some "KEY") Scripted.generateVideos
    (Scripted.getVideosOperation
       (Scripted.finished (Some [GeneratedVideo.mk (Some clip)])))
    (Scripted.fetch 200) Scripted.createObjectURL Scripted.decodeURIComponent 10
    (textRequest "sunrise over a valley") (Scripted.initial 2)
  = (Returned
       (GenerateVideoResult.mk "blob:https://app.example/0001" Scripted.mp4
          "https://provider.example/v/1?alt=media" clip),
     snd (generateVideo (Some "KEY") Scripted.generateVideos
            (Scripted.getVideosOperation
               (Scripted.finished (Some [GeneratedVideo.mk (Some clip)])))
            (Scripted.fetch 200) Scripted.createObjectURL Scripted.decodeURIComponent
            10 (textRequest "sunrise over a valley") (Scripted.initial 2))).
Proof.
  assert (Hle : 3 <= 10) by lia.
  exact (generateVideo_resolves (API_KEY := Some "KEY") Scripted.generateVideos
           (Scripted.getVideosOperation
              (Scripted.finished (Some [GeneratedVideo.mk (Some clip)])))
           (Scripted.fetch 200) Scripted.createObjectURL Scripted.decodeURIComponent
           (fuel := 3) (textRequest "sunrise over a valley") (Scripted.initial 2)
           (rest := []) (res := Response.mk 200 (inr Scripted.mp4))
           eq_refl eq_refl eq_refl eq_refl Hle eq_refl eq_refl eq_refl eq_refl
           eq_refl eq_refl eq_refl).
Defined.

Lemma generateVideo_call_discipline_witness :
  exists polled tail,
    log (snd (generateVideo (Some "KEY") Scripted.generateVideos
                (Scripted.getVideosOperation (Scripted.finished (Some [])))
                (Scripted.fetch 200) Scripted.createObjectURL
                Scripted.decodeURIComponent 2
                (textRequest "sunrise over a valley") (Scripted.initial 5)))
    = [] ++ generateVideos_call
              (Payload.mk VEO_FAST (Config.mk 1 P720 (Some LANDSCAPE) None None)
                 (Some "sunrise over a valley") None None)
            :: flat_map requery polled ++ tail
    /\ length polled <= 2
    /\ Forall (fun o => truthy_bool (Operation.done o) = false) polled
    /\ assetCalls tail.
Proof.
  destruct (generateVideo_call_discipline (Some "KEY") Scripted.generateVideos
              (Scripted.getVideosOperation (Scripted.finished (Some [])))
              (Scripted.fetch 200) Scripted.createObjectURL
              Scripted.decodeURIComponent
              2 (textRequest "sunrise over a valley") (Scripted.initial 5) eq_refl)
    as [H _].
  exact (H "KEY" eq_refl).
Defined.

(** * Properties of the prompt form *)

(** ** fileToBase64 *)

Lemma split_absent (sep : ascii) (s : string) :
  occurs sep s = false -> split sep s = [s].
Proof.
  induction s as [|c s IH]; cbn; [reflexivity|].
  intros H. apply Bool.orb_false_iff in H. destruct H as [Hc Hs].
  rewrite Hc, (IH Hs). reflexivity.
Qed.

Lemma split_app (sep : ascii) (header rest : string) :
  occurs sep header = false ->
  split sep (header ++ String sep rest) = header :: split sep rest.
Proof.
  induction header as [|c header IH]; cbn.
  - intros _. rewrite Ascii.eqb_refl. reflexivity.
  - intros H. apply Bool.orb_false_iff in H. destruct H as [Hc Hs].
    rewrite Hc, (IH Hs). reflexivity.
Qed.

(** X3. A data URL made of a header without a comma, a comma and a
    non-empty payload without a comma (as base64 text is) is read back as
    that payload, paired with the file it was read from; the image later
    sent for it has the payload as bytes and the file's type as MIME
    type. *)
Theorem fileToBase64_reads_payload
    (file : File.t) (header payload : string) :
  occurs "," header = false ->
  occurs "," payload = false ->
  payload <> "" ->
  fileToImageFile file (inr (header ++ "," ++ payload)%string)
  = inr (ImageFile.mk file payload)
  /\ fileToVideoFile file (inr (header ++ "," ++ payload)%string)
     = inr (VideoFile.mk file payload)
  /\ forall img,
       fileToImageFile file (inr (header ++ "," ++ payload)%string) = inr img ->
       imageOf img = Image.mk payload (File.type file).
Proof.
  intros Hh Hp Hne.
  assert (H : forall T (mk : File.t -> string -> T),
             fileToBase64 mk file (inr (header ++ "," ++ payload)%string)
             = inr (mk file payload)).
  { intros T mk. unfold fileToBase64.
    change (header ++ "," ++ payload)%string with (header ++ String "," payload)%string.
    rewrite split_app by exact Hh. rewrite split_absent by exact Hp. cbn.
    destruct payload; [contradiction Hne; reflexivity | reflexivity]. }
  split; [apply H|]. split; [apply H|].
  intros img Himg. unfold fileToImageFile in Himg. rewrite H in Himg.
  inversion Himg; subst. reflexivity.
Qed.

Lemma fileToBase64_reads_payload_witness :
  fileToImageFile (File.mk "logo.png" "image/png")
    (inr "data:image/png;base64,TE9HTw==")
  = inr logo.
Proof.
  apply (@fileToBase64_reads_payload (File.mk "logo.png" "image/png")
           "data:image/png;base64" "TE9HTw==");
    [reflexivity | reflexivity | discriminate].
Defined.

(** X4. The read is refused with "Failed to read file as base64." when the
    result has no comma at all, and when nothing follows its first comma
    (the data URL of an empty file); a failed read is passed on as it
    is. *)
Theorem fileToBase64_refuses_empty
    (T : Type) (mk : File.t -> string -> T) (file : File.t) (result : string) :
  occurs "," result = false ->
  fileToBase64 mk file (inr result) = inl (Error "Failed to read file as base64.")
  /\ fileToBase64 mk file (inr (result ++ ",")%string)
     = inl (Error "Failed to read file as base64.")
  /\ forall error, fileToBase64 mk file (inl error) = inl error.
Proof.
  intros H. unfold fileToBase64. split; [|split].
  - rewrite split_absent by exact H. reflexivity.
  - change (result ++ ",")%string with (result ++ String "," "")%string.
    rewrite split_app by exact H. reflexivity.
  - reflexivity.
Qed.

Lemma fileToBase64_refuses_empty_witness :
  fileToImageFile (File.mk "empty.png" "image/png") (inr "data:image/png;base64,")
  = inl (Error "Failed to read file as base64.").
Proof.
  apply (@fileToBase64_refuses_empty _ ImageFile.mk (File.mk "empty.png" "image/png")
           "data:image/png;base64").
  reflexivity.
Defined.

(** ** The submit gate *)

Lemma trimIsEmpty_false (s : string) :
  trimIsEmpty s = false -> truthy_string s = true.
Proof. destruct s; cbn; [discriminate | reflexivity]. Qed.

Lemma referenceImagesPayload_nonempty (params : GenerateVideoParams.t) :
  referenceSources params <> [] ->
  exists first others, referenceImagesPayload params = first :: others.
Proof.
  rewrite referenceImagesPayload_firstn.
  destruct (referenceSources params) as [|img imgs]; [congruence|].
  intros _. cbn. eauto.
Qed.

Lemma enabled_submit_assembles_payload (f : PromptForm.t) :
  isSubmitDisabled f = false ->
  exists payload, generateVideoPayload (handleSubmit f) = inr payload.
Proof.
  unfold isSubmitDisabled, submitGate. intros Hgate.
  destruct (generateVideoPayload (handleSubmit f)) as [e|payload] eqn:H;
    [|exists payload; reflexivity].
  apply generateVideoPayload_inl in H. destruct H as (Hm & Hv & _).
  cbn in Hm, Hv. rewrite Hm in Hgate. cbn in Hgate. rewrite Hv in Hgate.
  discriminate Hgate.
Qed.

(** X5. Whenever the submit button is enabled, the bundle [handleSubmit]
    passes on is assembled into a payload (the error for a missing video
    handle cannot occur), and the payload carries what the mode needs: in
    text mode the prompt, which is not blank; in frames mode the start
    frame as primary image; in references mode the non-blank prompt and a
    non-empty reference list; in extend mode the video handle. *)
Theorem enabled_submit_is_assembled (f : PromptForm.t) :
  isSubmitDisabled f = false ->
  exists payload,
    generateVideoPayload (handleSubmit f) = inr payload
    /\ match PromptForm.generationMode f with
       | TEXT_TO_VIDEO =>
           Payload.prompt payload = Some (PromptForm.prompt f)
           /\ trimIsEmpty (PromptForm.prompt f) = false
       | FRAMES_TO_VIDEO =>
           exists startFrame,
             PromptForm.startFrame f = Some startFrame
             /\ Payload.image payload = Some (imageOf startFrame)
       | REFERENCES_TO_VIDEO =>
           Payload.prompt payload = Some (PromptForm.prompt f)
           /\ trimIsEmpty (PromptForm.prompt f) = false
           /\ exists first others,
                Config.referenceImages (Payload.config payload) = Some (first :: others)
       | EXTEND_VIDEO =>
           exists inputVideoObject,
             PromptForm.inputVideoObject f = Some inputVideoObject
             /\ Payload.video payload = Some inputVideoObject
       end.
Proof.
  unfold isSubmitDisabled, submitGate. intros Hgate.
  destruct (generateVideoPayload (handleSubmit f)) as [e|payload] eqn:H.
  - apply generateVideoPayload_inl in H. destruct H as (Hm & Hv & _).
    cbn in Hm, Hv. rewrite Hm in Hgate. cbn in Hgate. rewrite Hv in Hgate.
    discriminate Hgate.
  - exists payload. split; [reflexivity|].
    destruct (generateVideoPayload_fields _ H)
      as (_ & Hp & Hi & Hv & _ & _ & _ & Hr & _).
    cbn in Hp, Hi, Hv.
    destruct (PromptForm.generationMode f); cbn in Hgate.
    + rewrite (trimIsEmpty_false _ Hgate) in Hp. split; assumption.
    + destruct (PromptForm.startFrame f) as [startFrame|]; [|discriminate Hgate].
      exists startFrame. split; [reflexivity | exact Hi].
    + apply Bool.orb_false_iff in Hgate. destruct Hgate as [Hrefs Hprompt].
      rewrite (trimIsEmpty_false _ Hprompt) in Hp.
      split; [exact Hp|]. split; [exact Hprompt|].
      destruct (referenceImagesPayload_nonempty (handleSubmit f))
        as (first & others & Hne).
      { unfold referenceSources. cbn.
        destruct (PromptForm.logoImage f); [discriminate|].
        destruct (PromptForm.referenceImages f); [discriminate Hrefs|discriminate]. }
      rewrite Hne in Hr. cbn in Hr. eauto.
    + destruct (PromptForm.inputVideoObject f) as [v|]; [|discriminate Hgate].
      exists v. split; [reflexivity | exact Hv].
Qed.

Lemma enabled_submit_is_assembled_witness :
  let f :=
    PromptForm.mk "Tomates al amanecer" VEO LANDSCAPE P720 REFERENCES_TO_VIDEO
      None None [tomato] (Some logo) None None None false false false in
  exists payload,
    generateVideoPayload (handleSubmit f) = inr payload
    /\ Payload.prompt payload = Some "Tomates al amanecer"
    /\ trimIsEmpty "Tomates al amanecer" = false
    /\ exists first others,
         Config.referenceImages (Payload.config payload) = Some (first :: others).
Proof.
  intros f. exact (enabled_submit_is_assembled f eq_refl).
Defined.

(** X6. The tooltip has a text exactly when the submit button is disabled:
    every way of being disabled sets a message, and an enabled button
    has none. *)
Theorem tooltip_iff_disabled (f : PromptForm.t) :
  isSubmitDisabled f = true <-> tooltipText f <> "".
Proof.
  unfold isSubmitDisabled, tooltipText, submitGate.
  destruct (PromptForm.generationMode f); cbn;
    try destruct (trimIsEmpty (PromptForm.prompt f));
    try destruct (truthy_object (PromptForm.startFrame f));
    try destruct (length (PromptForm.referenceImages f) =? 0);
    try destruct (truthy_object (PromptForm.logoImage f));
    try destruct (truthy_object (PromptForm.inputVideoObject f));
    cbn; split; intros H; try reflexivity; try discriminate;
    try (exfalso; apply H; reflexivity).
Qed.

(** X7. A prompt that is not empty and that [trim] leaves empty (white
    space only, of any kind [trim] removes) never passes the gate in text
    and references mode.  In frames mode with a start frame, and in extend
    mode with a video handle, the gate does not look at the prompt: the
    button is enabled and the white space is sent as the prompt. *)
Theorem blank_prompt_through_the_gate (f : PromptForm.t) :
  PromptForm.prompt f <> "" ->
  trimIsEmpty (PromptForm.prompt f) = true ->
  match PromptForm.generationMode f with
  | TEXT_TO_VIDEO | REFERENCES_TO_VIDEO => isSubmitDisabled f = true
  | FRAMES_TO_VIDEO =>
      PromptForm.startFrame f <> None ->
      isSubmitDisabled f = false
      /\ exists payload,
           generateVideoPayload (handleSubmit f) = inr payload
           /\ Payload.prompt payload = Some (PromptForm.prompt f)
  | EXTEND_VIDEO =>
      PromptForm.inputVideoObject f <> None ->
      isSubmitDisabled f = false
      /\ exists payload,
           generateVideoPayload (handleSubmit f) = inr payload
           /\ Payload.prompt payload = Some (PromptForm.prompt f)
  end.
Proof.
  intros Hne Hblank.
  assert (Htruthy : truthy_string (PromptForm.prompt f) = true).
  { destruct (PromptForm.prompt f); [contradiction Hne; reflexivity | reflexivity]. }
  assert (Hsent : forall payload,
             generateVideoPayload (handleSubmit f) = inr payload ->
             Payload.prompt payload = Some (PromptForm.prompt f)).
  { intros payload H.
    destruct (generateVideoPayload_fields _ H) as (_ & Hp & _).
    cbn in Hp. rewrite Htruthy in Hp. exact Hp. }
  unfold isSubmitDisabled, submitGate.
  destruct (PromptForm.generationMode f) eqn:Hmode; cbn.
  - exact Hblank.
  - intros Hstart.
    destruct (PromptForm.startFrame f) as [startFrame|] eqn:Hs; [|congruence].
    split; [reflexivity|].
    destruct (generateVideoPayload (handleSubmit f)) as [e|payload] eqn:H.
    + apply generateVideoPayload_inl in H. destruct H as (Hm & _).
      cbn in Hm. congruence.
    + exists payload. split; [reflexivity | apply Hsent; reflexivity].
  - rewrite Hblank. apply Bool.orb_true_r.
  - intros Hhandle.
    destruct (PromptForm.inputVideoObject f) as [v|] eqn:Hv; [|congruence].
    split; [reflexivity|].
    destruct (generateVideoPayload (handleSubmit f)) as [e|payload] eqn:H.
    + apply generateVideoPayload_inl in H. destruct H as (_ & Hn & _).
      cbn in Hn. congruence.
    + exists payload. split; [reflexivity | apply Hsent; reflexivity].
Qed.

Lemma blank_prompt_through_the_gate_witness :
  let blank := nbspSpace in
  let f :=
    PromptForm.mk blank VEO_FAST LANDSCAPE P720 FRAMES_TO_VIDEO
      (Some dawn) None [] None None None None false false false in
  isSubmitDisabled f = false
  /\ exists payload,
       generateVideoPayload (handleSubmit f) = inr payload
       /\ Payload.prompt payload = Some blank.
Proof.
  intros blank f.
  apply (@blank_prompt_through_the_gate f); [discriminate | reflexivity | discriminate].
Defined.

(** ** Switching mode and reopening the form *)

(** X8. Right after a mode is selected, before and after the effect on the
    mode has run, the button is disabled in every mode but text mode, where
    it is enabled exactly when the prompt is not blank; and no payload
    assembled from the form then holds an image, a last frame, a video or
    reference images, whatever media the form held before. *)
Theorem select_mode_discards_media
    (mode : GenerationMode) (f g : PromptForm.t) :
  g = handleSelectMode mode f \/ g = generationModeEffect (handleSelectMode mode f) ->
  isSubmitDisabled g
  = match mode with
    | TEXT_TO_VIDEO => trimIsEmpty (PromptForm.prompt f)
    | _ => true
    end
  /\ forall payload,
       generateVideoPayload (handleSubmit g) = inr payload ->
       Payload.image payload = None
       /\ Payload.video payload = None
       /\ Config.lastFrame (Payload.config payload) = None
       /\ Config.referenceImages (Payload.config payload) = None.
Proof.
  intros Hg.
  assert (Hmedia : PromptForm.generationMode g = mode
                   /\ PromptForm.prompt g = PromptForm.prompt f
                   /\ PromptForm.startFrame g = None
                   /\ PromptForm.endFrame g = None
                   /\ PromptForm.referenceImages g = []
                   /\ PromptForm.logoImage g = None
                   /\ PromptForm.inputVideoObject g = None
                   /\ PromptForm.isLooping g = false).
  { destruct Hg as [-> | ->]; destruct mode; cbn; repeat split. }
  destruct Hmedia as (Hm & Hp & Hs & He & Hr & Hl & Hv & Hloop).
  split.
  - unfold isSubmitDisabled, submitGate.
    rewrite Hm, Hp, Hs, Hr, Hl, Hv. destruct mode; reflexivity.
  - intros payload H.
    destruct (generateVideoPayload_fields _ H)
      as (_ & _ & Hi & Hvid & _ & _ & _ & Hrefs & Hlast).
    unfold referenceImagesPayload in Hrefs. unfold finalEndFrame in Hlast.
    cbn in Hi, Hvid, Hrefs, Hlast.
    rewrite Hs in Hi. rewrite Hv in Hvid. rewrite Hl, Hr in Hrefs.
    rewrite Hloop, He in Hlast. cbn in Hi, Hvid, Hrefs, Hlast.
    rewrite Hi, Hvid, Hrefs, Hlast.
    destruct (PromptForm.generationMode g); repeat split.
Qed.

Lemma select_mode_discards_media_witness :
  let before :=
    PromptForm.mk "Tomates al amanecer" VEO LANDSCAPE P720 REFERENCES_TO_VIDEO
      None None [tomato; pepper] (Some logo) None None None false false true in
  isSubmitDisabled (handleSelectMode TEXT_TO_VIDEO before) = false
  /\ forall payload,
       generateVideoPayload (handleSubmit (handleSelectMode TEXT_TO_VIDEO before))
       = inr payload ->
       Payload.image payload = None
       /\ Payload.video payload = None
       /\ Config.lastFrame (Payload.config payload) = None
       /\ Config.referenceImages (Payload.config payload) = None.
Proof.
  intros before.
  exact (@select_mode_discards_media TEXT_TO_VIDEO before
           (handleSelectMode TEXT_TO_VIDEO before) (or_introl eq_refl)).
Defined.

Lemma mount_same_request (p : GenerateVideoParams.t) :
  GenerateVideoParams.mode p = TEXT_TO_VIDEO
  \/ GenerateVideoParams.mode p = FRAMES_TO_VIDEO ->
  generateVideoPayload (handleSubmit (mount (Some p))) = generateVideoPayload p.
Proof.
  destruct p as [prompt model aspect res mode sf ef refs lg style raw handle loop].
  cbn. intros [-> | ->]; destruct refs as [l|]; destruct loop as [[|]|];
    reflexivity.
Qed.

(** X9. A form mounted with the values of an earlier request and
    submitted unchanged asks for the same prompt, frames, video handle and
    reference images as that request.  In text and frames mode the whole
    payload is the same; in references mode the model, aspect ratio and
    resolution are replaced by VEO, 16:9 and 720p; in extend mode the
    resolution is replaced by 720p. *)
Theorem mount_resubmits_request
    (p : GenerateVideoParams.t) (payload : Payload.t) :
  generateVideoPayload p = inr payload ->
  exists payload',
    generateVideoPayload (handleSubmit (mount (Some p))) = inr payload'
    /\ Payload.prompt payload' = Payload.prompt payload
    /\ Payload.image payload' = Payload.image payload
    /\ Payload.video payload' = Payload.video payload
    /\ Config.referenceImages (Payload.config payload')
       = Config.referenceImages (Payload.config payload)
    /\ Config.lastFrame (Payload.config payload')
       = Config.lastFrame (Payload.config payload)
    /\ match GenerateVideoParams.mode p with
       | TEXT_TO_VIDEO | FRAMES_TO_VIDEO => payload' = payload
       | REFERENCES_TO_VIDEO =>
           Payload.model payload' = VEO
           /\ Config.aspectRatio (Payload.config payload') = Some LANDSCAPE
           /\ Config.resolution (Payload.config payload') = P720
       | EXTEND_VIDEO =>
           Payload.model payload' = Payload.model payload
           /\ Config.aspectRatio (Payload.config payload') = None
           /\ Config.resolution (Payload.config payload') = P720
       end.
Proof.
  intros H.
  destruct (GenerateVideoParams.mode p) eqn:Hmode.
  1,2: exists payload; rewrite mount_same_request by auto; repeat split; exact H.
  all: destruct p as [prompt model aspect res mode sf ef refs lg style raw handle loop];
    cbn in Hmode; subst mode;
    destruct (generateVideoPayload_fields _ H)
      as (Hmod & Hp & Hi & Hv & _ & _ & _ & Hr & Hl);
    cbn in Hmod, Hp, Hi, Hv, Hl;
    destruct (generateVideoPayload
                (handleSubmit (mount (Some
                   (GenerateVideoParams.mk prompt model aspect res _ sf ef refs lg
                      style raw handle loop))))) as [e|payload'] eqn:H'.
  - apply generateVideoPayload_inl in H'. destruct H' as (Hm & _).
    cbn in Hm. discriminate Hm.
  - exists payload'. split; [reflexivity|].
    destruct (generateVideoPayload_fields _ H')
      as (Hmod' & Hp' & Hi' & Hv' & _ & Hres' & Ha' & Hr' & Hl').
    cbn in Hmod', Hp', Hi', Hv', Hres', Ha', Hl'.
    rewrite Hp, Hp', Hi, Hi', Hv, Hv', Hl, Hl', Hr, Hr', Hmod', Hres', Ha'.
    repeat split. destruct refs; reflexivity.
  - apply generateVideoPayload_inl in H'. destruct H' as (_ & Hn & _).
    cbn in Hn. rewrite Hn in H. discriminate H.
  - exists payload'. split; [reflexivity|].
    destruct (generateVideoPayload_fields _ H')
      as (Hmod' & Hp' & Hi' & Hv' & _ & Hres' & Ha' & Hr' & Hl').
    cbn in Hmod', Hp', Hi', Hv', Hres', Ha', Hl'.
    rewrite Hp, Hp', Hi, Hi', Hv, Hv', Hl, Hl', Hr, Hr', Hmod, Hmod', Hres', Ha'.
    repeat split. destruct refs; reflexivity.
Qed.

Lemma mount_resubmits_request_witness :
  let earlier :=
    GenerateVideoParams.mk "Tomates al amanecer" VEO_FAST PORTRAIT P1080
      REFERENCES_TO_VIDEO None None (Some [tomato]) (Some logo) None None None None in
  exists payload',
    generateVideoPayload (handleSubmit (mount (Some earlier))) = inr payload'
    /\ Payload.prompt payload' = Some "Tomates al amanecer"
    /\ Config.referenceImages (Payload.config payload')
       = Some [assetOf logo; assetOf tomato]
    /\ Payload.model payload' = VEO
    /\ Config.aspectRatio (Payload.config payload') = Some LANDSCAPE
    /\ Config.resolution (Payload.config payload') = P720.
Proof.
  intros earlier.
  destruct (mount_resubmits_request earlier eq_refl)
    as (payload' & H & Hp & _ & _ & Hr & _ & Hm & Ha & Hres).
  exists payload'. repeat split; assumption.
Defined.

(** * Properties of the App handlers *)

Section HandlerFacts.

Variable World : Type.
Variable API_KEY : option string.
Variable sendMessage :
  Chat.t -> string -> World -> (JsError.t + GenerateContentResponse.t) * World.
Variable generateVideos :
  Payload.t -> World -> (JsError.t + Operation.t) * World.
Variable getVideosOperation :
  Operation.t -> World -> (JsError.t + Operation.t) * World.
Variable fetch : string -> World -> (JsError.t + Response.t) * World.
Variable createObjectURL : Blob.t -> World -> string * World.
Variable decodeURIComponent : string -> JsError.t + string.

Local Abbreviation run :=
  (generateVideo API_KEY generateVideos getVideosOperation fetch
     createObjectURL decodeURIComponent).
Local Abbreviation tryGenerate :=
  (generate API_KEY generateVideos getVideosOperation fetch
     createObjectURL decodeURIComponent).
Local Abbreviation onGenerate :=
  (handleGenerate API_KEY generateVideos getVideosOperation fetch
     createObjectURL decodeURIComponent).

Lemma orElse_nonempty (response : option string) (fallback : string) :
  fallback <> "" -> orElse response fallback <> "".
Proof.
  intros Hf. unfold orElse.
  destruct response as [[|c text]|]; cbn; try exact Hf. discriminate.
Qed.

(** X10. A message that is not blank, sent while no answer is awaited, ends
    without an exception in every case.  The transcript gains exactly two
    entries, the input as typed under the user's role and then a reply
    under the model's role that is never empty.  The input is cleared, the
    loading flag is off again and the rest of the state is untouched.
    With the API key set, the one call made is the input sent to the fixed
    session, without the transcript, and the reply is the provider's text,
    or "No pude procesar eso." when the text is absent or empty, or the
    connection message when the call failed.  With the key unset no call
    is made and the reply is the connection message. *)
Theorem handleSendMessage_appends_exchange (app : App.t) (st : State World) :
  trimIsEmpty (App.chatInput app) = false ->
  App.isChatLoading app = false ->
  exists reply st',
    handleSendMessage API_KEY sendMessage app st
    = (Returned tt,
       App.mk (App.view app) (App.appState app) (App.videoUrl app)
         (App.errorMessage app) (App.showApiKeyDialog app)
         (App.chatMessages app
            ++ [ChatMessage.mk role_user (App.chatInput app);
                ChatMessage.mk role_model reply])
         "" false,
       st')
    /\ reply <> ""
    /\ (forall key, API_KEY = Some key ->
        match sendMessage session (App.chatInput app) (world st) with
        | (inr response, w) =>
            st' = mkState w (log st ++ [sendMessage_call session (App.chatInput app)])
            /\ reply = orElse (GenerateContentResponse.text response)
                         "No pude procesar eso."
        | (inl _, w) =>
            st' = mkState w (log st ++ [sendMessage_call session (App.chatInput app)])
            /\ reply = "Error de conexión con el asistente."
        end)
    /\ (API_KEY = None ->
        st' = st /\ reply = "Error de conexión con el asistente.").
Proof.
  intros Hinput Hloading.
  unfold handleSendMessage. rewrite Hinput, Hloading. cbn [orb].
  destruct (@key_set_or_unset API_KEY) as [[key Hkey] | Hkey].
  - rewrite askCatalogAssistant_with_key with (key := key) by exact Hkey.
    unfold bind, await, ret.
    destruct (sendMessage session (App.chatInput app) (world st))
      as [[e|response] w] eqn:Hsend.
    + exists "Error de conexión con el asistente.". eexists.
      unfold App.setIsChatLoading, App.pushChatMessage, App.setChatInput. cbn.
      rewrite <- app_assoc.
      split; [reflexivity|]. split; [discriminate|].
      split; [intros _ _; split; reflexivity | congruence].
    + exists (orElse (GenerateContentResponse.text response) "No pude procesar eso.").
      eexists.
      unfold App.setIsChatLoading, App.pushChatMessage, App.setChatInput. cbn.
      rewrite <- app_assoc.
      split; [reflexivity|]. split; [apply orElse_nonempty; discriminate|].
      split; [intros _ _; split; reflexivity | congruence].
  - rewrite askCatalogAssistant_without_key by exact Hkey.
    exists "Error de conexión con el asistente.", st.
    unfold App.setIsChatLoading, App.pushChatMessage, App.setChatInput. cbn.
    rewrite <- app_assoc.
    split; [reflexivity|]. split; [discriminate|].
    split; [congruence | intros _; split; reflexivity].
Qed.


(** X12. [handleGenerate] reaches the provider in neither of two cases.
    When the host page reports that no key is selected, only the key
    dialog is switched on.  When the key check passes (or there is no host
    page) and the request is an extension without a video handle, the
    state ends in ERROR with an error message: the one of the missing
    handle when the API key is set, the one of the client constructor when
    it is not.  In both cases the log of calls is as before. *)
Theorem handleGenerate_without_provider_call
    (aistudio : option (World -> (JsError.t + bool) * World))
    (fuel : nat) (params : GenerateVideoParams.t) (app : App.t) (st : State World) :
  (forall hasSelectedApiKey w,
      aistudio = Some hasSelectedApiKey ->
      hasSelectedApiKey (world st) = (inr false, w) ->
      onGenerate aistudio fuel params app st
      = (Returned tt, App.setShowApiKeyDialog true app, mkState w (log st)))
  /\ (GenerateVideoParams.mode params = EXTEND_VIDEO ->
      GenerateVideoParams.inputVideoObject params = None ->
      forall w,
        aistudio = None /\ w = world st
        \/ (exists hasSelectedApiKey,
              aistudio = Some hasSelectedApiKey
              /\ hasSelectedApiKey (world st) = (inr true, w)) ->
        exists message,
          onGenerate aistudio fuel params app st
          = (Returned tt,
             App.setAppState ERROR
               (App.setErrorMessage (Some message)
                  (App.setErrorMessage None (App.setAppState LOADING app))),
             mkState w (log st))
          /\ (forall key, API_KEY = Some key ->
              message = "An input video object is required to extend a video.")
          /\ (API_KEY = None ->
              message = "An API Key must be set when running in a browser")).
Proof.
  split.
  - intros h w -> Hh. unfold handleGenerate. rewrite Hh. reflexivity.
  - intros Hmode Hhandle w Hhost.
    assert (H : generateVideoPayload params
                = inl (Error "An input video object is required to extend a video."))
      by (apply generateVideoPayload_inl; auto).
    assert (Hgen : exists message,
               (forall st0,
                   tryGenerate fuel params app st0
                   = (Returned tt,
                      App.setAppState ERROR
                        (App.setErrorMessage (Some message)
                           (App.setErrorMessage None (App.setAppState LOADING app))),
                      st0))
               /\ (forall key, API_KEY = Some key ->
                   message = "An input video object is required to extend a video.")
               /\ (API_KEY = None ->
                   message = "An API Key must be set when running in a browser")).
    { destruct (@key_set_or_unset API_KEY) as [[key Hkey] | Hkey].
      - exists "An input video object is required to extend a video.".
        split; [|split; [reflexivity | congruence]].
        intros st0. unfold generate.
        rewrite generateVideo_with_key with (key := key) by exact Hkey.
        rewrite H. reflexivity.
      - exists "An API Key must be set when running in a browser".
        split; [|split; [congruence | reflexivity]].
        intros st0. unfold generate.
        rewrite generateVideo_without_key by exact Hkey. reflexivity. }
    destruct Hgen as (message & Hgen & Hset & Hunset).
    exists message. split; [|split; assumption].
    unfold handleGenerate.
    destruct Hhost as [[-> ->] | (h & -> & Hh)].
    + rewrite Hgen. destruct st; reflexivity.
    + rewrite Hh. apply Hgen.
Qed.

End HandlerFacts.

Lemma handleSendMessage_appends_exchange_witness :
  let app := App.setChatInput "Brix de NANCY?" App_initial in
  fst (handleSendMessage (Some "KEY") (Scripted.sendMessage (Some "")) app
         (Scripted.initial 0))
  = (Returned tt,
     App.mk CATALOG IDLE None None false
       [welcome; ChatMessage.mk role_user "Brix de NANCY?";
        ChatMessage.mk role_model "No pude procesar eso."] "" false)
  /\ handleSendMessage None (Scripted.sendMessage (Some "8.5")) app
       (Scripted.initial 0)
     = (Returned tt,
        App.mk CATALOG IDLE None None false
          [welcome; ChatMessage.mk role_user "Brix de NANCY?";
           ChatMessage.mk role_model "Error de conexión con el asistente."] "" false,
        Scripted.initial 0).
Proof.
  intros app. split.
  - destruct (handleSendMessage_appends_exchange (Some "KEY")
                (Scripted.sendMessage (Some "")) app (Scripted.initial 0)
                eq_refl eq_refl)
      as (reply & st' & H & _ & Hset & _).
    destruct (Hset "KEY" eq_refl) as [_ Hreply].
    rewrite H, Hreply. reflexivity.
  - destruct (handleSendMessage_appends_exchange None
                (Scripted.sendMessage (Some "8.5")) app (Scripted.initial 0)
                eq_refl eq_refl)
      as (reply & st' & H & _ & _ & Hunset).
    destruct (Hunset eq_refl) as [Hst Hreply].
    rewrite H, Hst, Hreply. reflexivity.
Defined.

Lemma handleGenerate_without_provider_call_witness :
  let params := request EXTEND_VIDEO None None [] None None false in
  handleGenerate (Some "KEY") Scripted.generateVideos
    (Scripted.getVideosOperation (Scripted.finished None)) (Scripted.fetch 200)
    Scripted.createObjectURL Scripted.decodeURIComponent (Some noKeySelected)
    5 params App_initial (Scripted.initial 2)
  = (Returned tt, App.setShowApiKeyDialog true App_initial, Scripted.initial 2)
  /\ handleGenerate (Some "KEY") Scripted.generateVideos
       (Scripted.getVideosOperation (Scripted.finished None))
       (Scripted.fetch 200) Scripted.createObjectURL
       Scripted.decodeURIComponent None 5 params App_initial (Scripted.initial 2)
     = (Returned tt,
        App.mk CATALOG ERROR None
          (Some "An input video object is required to extend a video.") false
          [welcome] "" false,
        Scripted.initial 2)
  /\ handleGenerate None Scripted.generateVideos
       (Scripted.getVideosOperation (Scripted.finished None))
       (Scripted.fetch 200) Scripted.createObjectURL
       Scripted.decodeURIComponent None 5 params App_initial (Scripted.initial 2)
     = (Returned tt,
        App.mk CATALOG ERROR None
          (Some "An API Key must be set when running in a browser") false
          [welcome] "" false,
        Scripted.initial 2).
Proof.
  intros params. split; [|split].
  - destruct (handleGenerate_without_provider_call (Some "KEY")
                Scripted.generateVideos
                (Scripted.getVideosOperation (Scripted.finished None))
                (Scripted.fetch 200) Scripted.createObjectURL
                Scripted.decodeURIComponent (Some noKeySelected) 5 params
                App_initial (Scripted.initial 2)) as [H _].
    exact (H noKeySelected 2 eq_refl eq_refl).
  - destruct (handleGenerate_without_provider_call (Some "KEY")
                Scripted.generateVideos
                (Scripted.getVideosOperation (Scripted.finished None))
                (Scripted.fetch 200) Scripted.createObjectURL
                Scripted.decodeURIComponent None 5 params
                App_initial (Scripted.initial 2)) as [_ H].
    destruct (H eq_refl eq_refl 2 (or_introl (conj eq_refl eq_refl)))
      as (message & Hrun & Hset & _).
    rewrite Hrun, (Hset "KEY" eq_refl). reflexivity.
  - destruct (handleGenerate_without_provider_call None
                Scripted.generateVideos
                (Scripted.getVideosOperation (Scripted.finished None))
                (Scripted.fetch 200) Scripted.createObjectURL
                Scripted.decodeURIComponent None 5 params
                App_initial (Scripted.initial 2)) as [_ H].
    destruct (H eq_refl eq_refl 2 (or_introl (conj eq_refl eq_refl)))
      as (message & Hrun & _ & Hunset).
    rewrite Hrun, (Hunset eq_refl). reflexivity.
Defined.


Lemma tooltip_iff_disabled_witness :
  tooltipText
    (PromptForm.mk "   " VEO LANDSCAPE P720 REFERENCES_TO_VIDEO None None [tomato] None
       None None None false false false)
  <> "".
Proof.
  apply (tooltip_iff_disabled
           (PromptForm.mk "   " VEO LANDSCAPE P720 REFERENCES_TO_VIDEO None None
              [tomato] None None None None false false false)).
  reflexivity.
Defined.

(** ** The template *)

(** X13. After the template is loaded the form is in references mode with
    the model VEO and the template as prompt, and the media are kept: the
    button is enabled exactly when a logo or a reference image is present,
    and the payload then holds the template prompt, the model VEO and the
    reference list of those media. *)
Theorem loadTemplate_keeps_media (f : PromptForm.t) :
  isSubmitDisabled (loadTemplate f)
  = (length (PromptForm.referenceImages f) =? 0)
    && negb (truthy_object (PromptForm.logoImage f))
  /\ (isSubmitDisabled (loadTemplate f) = false ->
      exists payload,
        generateVideoPayload (handleSubmit (loadTemplate f)) = inr payload
        /\ Payload.model payload = VEO
        /\ Payload.prompt payload = Some EPIC_PROMPT_TEMPLATE
        /\ Config.referenceImages (Payload.config payload)
           = Some (firstn 3 (map assetOf
                      (match PromptForm.logoImage f with
                       | Some logoImage => [logoImage]
                       | None => []
                       end ++ PromptForm.referenceImages f)))).
Proof.
  assert (Hgate : isSubmitDisabled (loadTemplate f)
                  = (length (PromptForm.referenceImages f) =? 0)
                    && negb (truthy_object (PromptForm.logoImage f))).
  { unfold isSubmitDisabled, submitGate. cbn [loadTemplate PromptForm.generationMode
      PromptForm.referenceImages PromptForm.logoImage PromptForm.prompt fst].
    replace (trimIsEmpty EPIC_PROMPT_TEMPLATE) with false by (vm_compute; reflexivity).
    apply Bool.orb_false_r. }
  split; [exact Hgate|].
  intros Henabled.
  destruct (enabled_submit_assembles_payload (loadTemplate f) Henabled)
    as (payload & H).
  exists payload. split; [exact H|].
  destruct (generateVideoPayload_fields _ H)
    as (Hmod & Hp & _ & _ & _ & _ & _ & Hr & _).
  split; [exact Hmod|]. split.
  - rewrite Hp. cbn [handleSubmit loadTemplate GenerateVideoParams.prompt
                     PromptForm.prompt].
    replace (truthy_string EPIC_PROMPT_TEMPLATE) with true by (vm_compute; reflexivity).
    reflexivity.
  - rewrite Hr, referenceImagesPayload_firstn. unfold referenceSources.
    cbn [handleSubmit loadTemplate GenerateVideoParams.logoImage
         GenerateVideoParams.referenceImages PromptForm.logoImage
         PromptForm.referenceImages].
    rewrite Hgate in Henabled.
    destruct (PromptForm.logoImage f); [reflexivity|].
    destruct (PromptForm.referenceImages f); [discriminate Henabled | reflexivity].
Qed.

Lemma loadTemplate_keeps_media_witness :
  let f :=
    PromptForm.mk "" VEO LANDSCAPE P720 REFERENCES_TO_VIDEO None None [tomato]
      (Some logo) None None None false false false in
  exists payload,
    generateVideoPayload (handleSubmit (loadTemplate f)) = inr payload
    /\ Payload.model payload = VEO
    /\ Payload.prompt payload = Some EPIC_PROMPT_TEMPLATE
    /\ Config.referenceImages (Payload.config payload)
       = Some [assetOf logo; assetOf tomato].
Proof.
  intros f.
  destruct (loadTemplate_keeps_media f) as [_ H].
  exact (H eq_refl).
Defined.
